(** * lmhttpd.hpp: controllers, per-connection state and the web server

    A shallow embedding of the header-only library [lmh] (namespace [lmh]
    of lmhttpd.hpp, the revision with [ConnectionState], the allow-list and
    [start_daemon]), and the properties of its dispatcher, of the dynamic
    controller's connection state machine, of the allow-list and of the
    daemon start loop.

    Conventions of the embedding.
    - C strings and [std::string] are [string]; a nullable [const char*]
      is an [option string].
    - [int], [uint32_t] and [unsigned short] values are [Z]; the one
      place where unsigned arithmetic can wrap ([++] on the wait counter)
      writes the wrap-around out.
    - Objects that live on the C++ heap are reached through addresses:
      [loc] for [ConnectionState] objects, [cref] for controllers.  The
      connection states form a [gmap loc ConnectionState]; [new] inserts at
      a fresh address and [delete] removes.  Dereferencing an address that
      is not in the map is undefined behaviour in C++ and [None] here.
    - What the code does to the outside (calls into libmicrohttpd, libc
      and the user's virtual methods) is recorded as a list of [event]s.
      What the outside answers (the result of [MHD_queue_response], of
      [socket], [bind], ...) is an argument of the function that asks. *)

From stdpp Require Import base option list strings gmap pretty.
From Stdlib Require Import ZArith Lia.

Local Open Scope Z_scope.

(** ** Constants of libmicrohttpd and of the socket API *)

Definition MHD_YES : Z := 1.
Definition MHD_NO : Z := 0.
Definition MHD_HTTP_OK : Z := 200.
Definition MHD_HTTP_FORBIDDEN : Z := 403.
Definition MHD_HTTP_NOT_FOUND : Z := 404.

Definition AF_INET : Z := 2.
Definition AF_INET6 : Z := 10.
Definition INET6_ADDRSTRLEN : nat := 46.

Inductive MHD_RequestTerminationCode :=
| MHD_REQUEST_TERMINATED_COMPLETED_OK
| MHD_REQUEST_TERMINATED_WITH_ERROR
| MHD_REQUEST_TERMINATED_TIMEOUT_REACHED
| MHD_REQUEST_TERMINATED_DAEMON_SHUTDOWN
| MHD_REQUEST_TERMINATED_READ_ERROR
| MHD_REQUEST_TERMINATED_CLIENT_ABORT.

(** [uint32_t] arithmetic: the value after wrap-around. *)
Definition wrap32 (z : Z) : Z := z mod 2 ^ 32.

(** ** Addresses *)

Definition loc := nat.
Definition cref := nat.

Definition headers_t := list (string * string).

(** ** struct ConnectionState *)

Record ConnectionState := mkConnectionState {
  conroller : cref;
  request_data : string;
  response_sent : bool;
  response_headers : headers_t;
  response_data : string;
  request_waiting_loop_counter : Z;
}.

(** [explicit ConnectionState(Controller& controller)] with the default
    member initialisers. *)
Definition ConnectionState_new (controller : cref) : ConnectionState :=
  {| conroller := controller;
     request_data := "";
     response_sent := false;
     response_headers := [];
     response_data := "";
     request_waiting_loop_counter := 0 |}.

Definition set_request_data (s : string) (st : ConnectionState) :=
  mkConnectionState (conroller st) s (response_sent st) (response_headers st)
    (response_data st) (request_waiting_loop_counter st).

Definition set_response_sent (b : bool) (st : ConnectionState) :=
  mkConnectionState (conroller st) (request_data st) b (response_headers st)
    (response_data st) (request_waiting_loop_counter st).

Definition set_response (body : string) (hdrs : headers_t) (st : ConnectionState) :=
  mkConnectionState (conroller st) (request_data st) (response_sent st) hdrs
    body (request_waiting_loop_counter st).

Definition set_request_waiting_loop_counter (n : Z) (st : ConnectionState) :=
  mkConnectionState (conroller st) (request_data st) (response_sent st)
    (response_headers st) (response_data st) n.

(** ** struct ResponseParams *)

Record ResponseParams := mkResponseParams {
  response_code : Z;
  response_message : string;
  headers : headers_t;
}.

(** [ResponseParams() = default]: the member initialisers. *)
Definition ResponseParams_default : ResponseParams :=
  {| response_code := MHD_YES; response_message := ""; headers := [] |}.

(** ** The transport's view of a peer *)

Record sockaddr := mkSockaddr {
  sa_family : Z;
  sa_addr : list Z;
}.

(** [MHD_get_connection_info(connection, MHD_CONNECTION_INFO_CLIENT_ADDRESS)]
    is a nullable pointer to a union whose [client_addr] member is itself a
    nullable pointer. *)
Record MHD_Connection := mkConnection {
  client_address_info : option (option sockaddr);
}.

(** The arguments of one activation of the access handler callback.  The
    pair [(upload_data, *upload_data_size)] is the optional string. *)
Record Call := mkCall {
  connection : MHD_Connection;
  url : string;
  method : string;
  version : string;
  upload_data : option string;
}.

(** ** Observable effects *)

Inductive event :=
| EvValidPath (c : cref) (path meth : string) (answer : bool)
| EvHandleRequest (c : cref)
| EvNew (l : loc) (c : cref)
| EvDelete (l : loc)
| EvCreateResponse (c : cref)
| EvNanosleep (tv_sec tv_nsec : Z)
| EvQueueResponse (status : Z) (body : string) (hdrs : headers_t)
| EvHandleComplete (c : cref) (toe : MHD_RequestTerminationCode).

Definition is_EvCreateResponse (e : event) : bool :=
  match e with EvCreateResponse _ => true | _ => false end.

Definition is_EvQueueResponse (e : event) : bool :=
  match e with EvQueueResponse _ _ _ => true | _ => false end.

Definition is_EvDelete (l : loc) (e : event) : bool :=
  match e with EvDelete l' => bool_decide (l' = l) | _ => false end.

Definition is_dispatch_event (e : event) : bool :=
  match e with
  | EvValidPath _ _ _ _ | EvHandleRequest _ | EvCreateResponse _ => true
  | _ => false
  end.

Fixpoint count_events (p : event -> bool) (tr : list event) : nat :=
  match tr with
  | [] => 0%nat
  | e :: tr' => ((if p e then 1 else 0) + count_events p tr')%nat
  end.

(** ** The program state and the controller interface *)

Section Lmh.

(** [U] is the state of everything outside the library that the user's
    virtual methods can read and change: the application's own objects,
    the clock, the transport's upload window ([*upload_data_size]). *)
Context {U : Type}.

(** [DynamicController::waiting_usec_sleep] and
    [DynamicController::waiting_loops] are mutable statics, so they are
    part of the program state. *)
Record World := mkWorld {
  states : gmap loc ConnectionState;
  waiting_usec_sleep : Z * Z;
  waiting_loops : Z;
  user : U;
}.

Definition set_states (h : gmap loc ConnectionState) (w : World) : World :=
  mkWorld h (waiting_usec_sleep w) (waiting_loops w) (user w).

Definition set_user (u : U) (w : World) : World :=
  mkWorld (states w) (waiting_usec_sleep w) (waiting_loops w) u.

(** The initial values of the statics: 10 ms and 300 loops. *)
Definition World_init (u : U) : World :=
  {| states := ∅; waiting_usec_sleep := (0, 10000000);
     waiting_loops := 300; user := u |}.

(** What a request callback leaves behind: its return value, the
    connection's opaque slot ([*ptr]), the program state and the effects
    in the order they happened. *)
Record Outcome := mkOutcome {
  ret : Z;
  slot : option loc;
  world : World;
  trace : list event;
}.

(** [emit evs o]: the events [evs] happened before those of [o]. *)
Definition emit (evs : list event) (o : option Outcome) : option Outcome :=
  (fun out => mkOutcome (ret out) (slot out) (world out) (evs ++ trace out)) <$> o.

(** class Controller: the four virtual methods.  [this] is passed
    explicitly; the last argument of [handleRequest] before the world is
    what [MHD_queue_response] answers if the method calls it. *)
Record Controller := mkController {
  validPath : string -> string -> bool;
  handleRequest : cref -> Call -> option loc -> Z -> World -> option Outcome;
  handleComplete :
    cref -> MHD_RequestTerminationCode -> option loc -> World ->
    option (Z * World * list event);
  create_state : cref -> World -> loc * World * list event;
}.

(** [Controller::handleComplete], the default:
    [if(cs) delete cs; return MHD_YES;].  Deleting an address that holds
    no object is undefined. *)
Definition Controller_handleComplete
    (this : cref) (toe : MHD_RequestTerminationCode) (cs : option loc)
    (w : World) : option (Z * World * list event) :=
  match cs with
  | None => Some (MHD_YES, w, [])
  | Some l =>
      match states w !! l with
      | Some _ => Some (MHD_YES, set_states (delete l (states w)) w, [EvDelete l])
      | None => None
      end
  end.

(** [Controller::create_state], the default:
    [return new ConnectionState( *this);]. *)
Definition Controller_create_state (this : cref) (w : World)
    : loc * World * list event :=
  let l := fresh (dom (states w)) in
  (l, set_states (<[l := ConnectionState_new this]> (states w)) w, [EvNew l this]).

(** ** class DynamicController *)

(** What a call of the user's [createResponse] produces: the returned
    [ResponseParams], the text written to the [response] stream, and the
    [request_data] of the connection state afterwards (the callback is
    handed [ptr], and [request_data] is the one field of the state the
    library itself never reads or writes). *)
Record Created := mkCreated {
  cr_params : ResponseParams;
  cr_response : string;
  cr_request_data : string;
}.

Definition createResponse_t : Type :=
  Call -> ConnectionState -> U -> Created * U.

Definition update_state (l : loc) (st : ConnectionState) (w : World) : World :=
  set_states (<[l := st]> (states w)) w.

(** [DynamicController::handleRequest].  [create_state_v] is the virtual
    [create_state] of the object, [createResponse] its pure virtual
    [createResponse], [qret] the answer of [MHD_queue_response]. *)
Definition DynamicController_handleRequest
    (create_state_v : cref -> World -> loc * World * list event)
    (createResponse : createResponse_t)
    (this : cref) (c : Call) (ptr : option loc) (qret : Z) (w : World)
    : option Outcome :=
  (* if(not *ptr) *ptr = create_state(); *)
  let '(l, w, tr) :=
    match ptr with
    | Some l => (l, w, [])
    | None => create_state_v this w
    end in
  (* auto* state = reinterpret_cast<lmh::ConnectionState*>( *ptr); *)
  state ← states w !! l;
  if negb (response_sent state) then
    if String.eqb (method c) "POST"
       && bool_decide (upload_data c = None)
       && String.eqb (response_data state) ""
    then
      (* if(++state->request_waiting_loop_counter > waiting_loops) *)
      let n := wrap32 (request_waiting_loop_counter state + 1) in
      let w := update_state l (set_request_waiting_loop_counter n state) w in
      if waiting_loops w <? n then
        Some (mkOutcome MHD_NO (Some l) w tr)
      else
        let '(sec, nsec) := waiting_usec_sleep w in
        Some (mkOutcome MHD_YES (Some l) w (tr ++ [EvNanosleep sec nsec]))
    else
      let built :=
        if String.eqb (response_data state) "" then
          let '(cr, u) := createResponse c state (user w) in
          let state := set_request_data (cr_request_data cr) state in
          let w := set_user u w in
          if response_code (cr_params cr) =? MHD_NO then
            inl (update_state l state w)
          else
            inr (set_response (cr_response cr) (headers (cr_params cr)) state,
                 w, [EvCreateResponse this])
        else inr (state, w, [])
      in
      match built with
      | inl w => Some (mkOutcome MHD_NO (Some l) w (tr ++ [EvCreateResponse this]))
      | inr (state, w, tr') =>
          (* ret = MHD_queue_response(connection, MHD_HTTP_OK, response); *)
          let q := EvQueueResponse MHD_HTTP_OK (response_data state)
                     (response_headers state) in
          let state :=
            if qret =? MHD_YES then set_response_sent true state else state in
          Some (mkOutcome MHD_YES (Some l) (update_state l state w)
                  (tr ++ tr' ++ [q]))
      end
  else
    Some (mkOutcome MHD_YES (Some l) w tr).

(** A concrete dynamic controller: the user overrides [validPath] and
    [createResponse] and inherits the rest. *)
Definition DynamicController
    (validPath_v : string -> string -> bool)
    (createResponse : createResponse_t) : Controller :=
  {| validPath := validPath_v;
     handleRequest :=
       DynamicController_handleRequest Controller_create_state createResponse;
     handleComplete := Controller_handleComplete;
     create_state := Controller_create_state |}.

End Lmh.

(** ** class WebServer *)

Section Server.

Context {U : Type}.

(** [inet_ntop(af, src, dst, size)] of libc: given the address family, the
    address bytes and the destination buffer, the buffer afterwards. *)
Variable inet_ntop : Z -> list Z -> string -> string.

(** [WebServer::options_t]. *)
Record options_t := mkOptions {
  bind_loopback : bool;
  bind_address : string;
  bind_interface : string;
  certificate : option (string * string);
  handler_should_terminate : option (U -> bool * U);
  allowed_ips : list string;
}.

(** The default member initialisers of [options_t]. *)
Definition options_default : options_t :=
  {| bind_loopback := false; bind_address := ""; bind_interface := "";
     certificate := None; handler_should_terminate := None;
     allowed_ips := ["*"%string] |}.

(** [options_t::is_allowed_ip]: [std::any_of] over [allowed_ips]. *)
Definition is_allowed_ip (o : options_t) (ip : string) : bool :=
  existsb
    (fun it =>
       if String.eqb it "all" || String.eqb it "*" then true
       else String.eqb it ip)
    (allowed_ips o).

(** [controllers] is a vector of shared pointers: each entry is null or
    the address of a controller object.  The objects themselves are kept
    in a store [gmap cref Controller] that the functions below receive. *)
Record WebServer := mkWebServer {
  port_ : Z;
  options_ : options_t;
  controllers : list (option cref);
}.

(** [std::array<char, INET6_ADDRSTRLEN> client_ip {0}]. *)
Fixpoint zeroed (n : nat) : string :=
  match n with
  | O => EmptyString
  | S n' => String Ascii.zero (zeroed n')
  end.

Definition client_ip_zeroed : string := zeroed INET6_ADDRSTRLEN.

(** [ip.assign(client_ip.begin(), std::find(client_ip.begin(),
    client_ip.end(), '\0'))]: the characters before the first NUL. *)
Fixpoint until_nul (buf : string) : string :=
  match buf with
  | EmptyString => EmptyString
  | String a rest =>
      if Ascii.eqb a Ascii.zero then EmptyString else String a (until_nul rest)
  end.

(** [WebServer::connection_ip]. *)
Definition connection_ip (conn : MHD_Connection) : string :=
  match client_address_info conn with
  | None => ""
  | Some None => ""
  | Some (Some client_addr) =>
      if sa_family client_addr =? AF_INET then
        until_nul (inet_ntop AF_INET (sa_addr client_addr) client_ip_zeroed)
      else if sa_family client_addr =? AF_INET6 then
        until_nul (inet_ntop AF_INET6 (sa_addr client_addr) client_ip_zeroed)
      else ""
  end.

(** [WebServer::is_ip_allowed]. *)
Definition is_ip_allowed (server : WebServer) (conn : MHD_Connection) : bool :=
  is_allowed_ip (options_ server) (connection_ip conn).

Definition empty_response (status : Z) : event := EvQueueResponse status "" [].

(** The [for] loop of [request_handler] over the controllers that are
    still to be tried, followed by the "not found" response after it. *)
Fixpoint request_handler_scan
    (objs : gmap cref (@Controller U)) (cs : list (option cref))
    (c : Call) (ptr : option loc) (qret : Z) (w : World) : option Outcome :=
  match cs with
  | [] => Some (mkOutcome qret ptr w [empty_response MHD_HTTP_NOT_FOUND])
  | None :: cs' => request_handler_scan objs cs' c ptr qret w
  | Some r :: cs' =>
      ctl ← objs !! r;
      if validPath ctl (url c) (method c) then
        emit [EvValidPath r (url c) (method c) true; EvHandleRequest r]
             (handleRequest ctl r c ptr qret w)
      else
        emit [EvValidPath r (url c) (method c) false]
             (request_handler_scan objs cs' c ptr qret w)
  end.

(** [WebServer::request_handler]. *)
Definition request_handler
    (objs : gmap cref (@Controller U)) (server : WebServer)
    (c : Call) (ptr : option loc) (qret : Z) (w : World) : option Outcome :=
  if negb (is_ip_allowed server (connection c)) then
    Some (mkOutcome qret ptr w [empty_response MHD_HTTP_FORBIDDEN])
  else
    request_handler_scan objs (controllers server) c ptr qret w.

(** [WebServer::request_complete_handler]. *)
Definition request_complete_handler
    (objs : gmap cref (@Controller U)) (con_cls : option loc)
    (toe : MHD_RequestTerminationCode) (w : @World U)
    : option (@World U * list event) :=
  match con_cls with
  | None => Some (w, [])
  | Some l =>
      cs ← states w !! l;
      ctl ← objs !! conroller cs;
      '(_, w', tr) ← handleComplete ctl (conroller cs) toe (Some l) w;
      Some (w', EvHandleComplete (conroller cs) toe :: tr)
  end.

(** ** A connection as the transport drives it *)

(** One activation of the access handler: its arguments and what
    [MHD_queue_response] will answer. *)
Record Activation := mkActivation {
  act_call : Call;
  act_qret : Z;
}.

Definition handler_t : Type :=
  Call -> option loc -> Z -> @World U -> option (@Outcome U).

(** The transport calls the handler once per activation, handing the
    slot and the world on; the result lists, per activation, the return
    value and the effects. *)
Fixpoint run_connection (h : handler_t) (acts : list Activation)
    (ptr : option loc) (w : World)
    : option (list (Z * list event) * option loc * World) :=
  match acts with
  | [] => Some ([], ptr, w)
  | a :: acts' =>
      out ← h (act_call a) ptr (act_qret a) w;
      '(rs, ptr', w') ← run_connection h acts' (slot out) (world out);
      Some ((ret out, trace out) :: rs, ptr', w')
  end.

Definition all_events (rs : list (Z * list event)) : list event :=
  concat (map snd rs).

End Server.

(** ** The daemon start loop *)

Section Daemon.

Context {U : Type}.

(** What [bind_addr.sin_addr] holds: [htonl(INADDR_LOOPBACK)], the
    address bytes that [inet_pton] wrote, or the zeroes of the [memset],
    which are the wildcard address. *)
Inductive bind_target :=
| BindLoopback
| BindLiteral (address : list Z)
| BindAny.

(** Effects of [start_daemon] and [stop_daemon]. *)
Inductive daemon_event :=
| DStop (daemon : nat)
| DSocket (fd : Z)
| DSetsockopt (fd : Z) (interface : string) (answer : Z)
| DBind (fd : Z) (target : bind_target) (port : Z) (answer : Z)
| DListen (fd : Z) (answer : Z)
| DClose (fd : Z)
| DSleep (seconds : Z)
| DStartDaemon (tls : bool) (fd : Z) (answer : option nat).

Definition is_DStartDaemon (e : daemon_event) : bool :=
  match e with DStartDaemon _ _ _ => true | _ => false end.

Definition is_DSleep (e : daemon_event) : bool :=
  match e with DSleep _ => true | _ => false end.

Definition is_DSocket (e : daemon_event) : bool :=
  match e with DSocket _ => true | _ => false end.

Fixpoint count_daemon_events (p : daemon_event -> bool)
    (tr : list daemon_event) : nat :=
  match tr with
  | [] => 0%nat
  | e :: tr' => ((if p e then 1 else 0) + count_daemon_events p tr')%nat
  end.

(** What the operating system and the transport engine answer during one
    pass through the loop body: what [inet_pton(AF_INET, ...)] makes of
    [bind_address] (the address bytes it writes, or nothing when it
    rejects the text and leaves [sin_addr] as it is), and the results of
    [socket], [setsockopt], [bind], [listen] and [MHD_start_daemon] (null
    or a daemon handle). *)
Record Answers := mkAnswers {
  inet_pton_ret : option (list Z);
  socket_ret : Z;
  setsockopt_ret : Z;
  bind_ret : Z;
  listen_ret : Z;
  MHD_start_daemon_ret : option nat;
}.

(** The [if]/[else] that fills [bind_addr.sin_addr]; the result of
    [inet_pton] is not looked at, so a rejected text leaves the zeroes. *)
Definition bind_addr_of (o : @options_t U) (a : Answers) : bind_target :=
  if bind_loopback o then BindLoopback
  else if negb (String.eqb (bind_address o) "") then
    match inet_pton_ret a with
    | Some address => BindLiteral address
    | None => BindAny
    end
  else BindAny.

(** One pass through the body of the [while] loop of [start_daemon]:
    the new [daemon_], the new [attempts] and the effects.  The four
    early exits are the [continue] statements; the last three of them
    ([close_and_wait]) close the socket first. *)
Definition start_daemon_body (port : Z) (o : @options_t U) (a : Answers)
    (attempts : Z) : option nat * Z * list daemon_event :=
  let listen_socket := socket_ret a in
  let close_and_wait tr := (None, attempts, tr ++ [DClose listen_socket; DSleep 5]) in
  (* if (listen_socket == -1) { sleepy(5); continue; } *)
  if listen_socket =? -1 then
    (None, attempts, [DSocket listen_socket; DSleep 5])
  else
    let to_device := negb (String.eqb (bind_interface o) "") in
    let tr :=
      if to_device
      then [DSocket listen_socket;
            DSetsockopt listen_socket (bind_interface o) (setsockopt_ret a)]
      else [DSocket listen_socket] in
    if to_device && (setsockopt_ret a <? 0) then close_and_wait tr
    else
      let tr := tr ++ [DBind listen_socket (bind_addr_of o a) port (bind_ret a)] in
      if bind_ret a =? -1 then close_and_wait tr
      else
        let tr := tr ++ [DListen listen_socket (listen_ret a)] in
        if listen_ret a =? -1 then close_and_wait tr
        else
          (* daemon_ = MHD_start_daemon(...); *)
          let daemon_ := MHD_start_daemon_ret a in
          let tr := tr ++ [DStartDaemon (bool_decide (is_Some (certificate o)))
                             listen_socket daemon_] in
          (* if(! daemon_) nanosleep(5 s); --attempts; *)
          let tr := if daemon_ is None then tr ++ [DSleep 5] else tr in
          (daemon_, attempts - 1, tr).

(** [while(! daemon_ && attempts >= 0) { ... }].  The loop is not
    structurally bounded, so the model takes fuel: [None] means the loop
    was still running when the fuel ran out.  [os i] answers the [i]-th
    pass. *)
Fixpoint start_daemon_loop (fuel : nat) (port : Z) (o : @options_t U)
    (os : nat -> Answers) (i : nat) (daemon_ : option nat) (attempts : Z)
    : option (option nat * Z * list daemon_event) :=
  if bool_decide (daemon_ = None) && (0 <=? attempts) then
    match fuel with
    | O => None
    | S fuel' =>
        let '(d, n, tr) := start_daemon_body port o (os i) attempts in
        '(d', n', tr') ← start_daemon_loop fuel' port o os (S i) d n;
        Some (d', n', tr ++ tr')
    end
  else Some (daemon_, attempts, []).

(** [WebServer::stop_daemon]: [if(daemon_) MHD_stop_daemon(daemon_);]
    (the member keeps its value). *)
Definition stop_daemon (daemon_ : option nat) : list daemon_event :=
  match daemon_ with Some d => [DStop d] | None => [] end.

(** [WebServer::start_daemon]: the final [daemon_] and the effects. *)
Definition start_daemon (fuel : nat) (server : @WebServer U)
    (daemon_ : option nat) (os : nat -> Answers)
    : option (option nat * list daemon_event) :=
  '(d, _, tr) ← start_daemon_loop fuel (port_ server) (options_ server) os 0
                   daemon_ 12;
  Some (d, stop_daemon daemon_ ++ tr).

End Daemon.

(** ** Vocabulary of the statements *)

Section Vocabulary.

Context {U : Type}.

(** An entry of the controller vector that the scan passes over: a null
    pointer, or a controller whose [validPath] answers false. *)
Definition passed_over (objs : gmap cref (@Controller U)) (c : Call)
    (entry : option cref) : Prop :=
  match entry with
  | None => True
  | Some r => ∃ ctl, objs !! r = Some ctl ∧ validPath ctl (url c) (method c) = false
  end.

(** The [validPath] calls made on entries that are passed over. *)
Definition passed_over_events (c : Call) (entries : list (option cref))
    : list event :=
  omap (fun entry : option cref =>
          (fun r => EvValidPath r (url c) (method c) false) <$> entry) entries.

(** An activation of a body-bearing request for which no body has arrived. *)
Definition awaiting_body (a : Activation) : Prop :=
  method (act_call a) = "POST"%string ∧ upload_data (act_call a) = None.

(** The address-family test of [connection_ip] fails: no descriptor, no
    peer address, or a family that is neither IPv4 nor IPv6. *)
Definition no_inet_peer (conn : MHD_Connection) : Prop :=
  match client_address_info conn with
  | None | Some None => True
  | Some (Some sa) => sa_family sa ≠ AF_INET ∧ sa_family sa ≠ AF_INET6
  end.

(** A call for which the body is available or not required. *)
Definition body_ready (c : Call) : Prop :=
  method c ≠ "POST"%string ∨ upload_data c ≠ None.

(** The first statement of [DynamicController::handleRequest],
    [if(not *ptr) *ptr = create_state();], for a controller that inherits
    [create_state]: the address in the slot afterwards, the program state
    and the effects. *)
Definition attach (this : cref) (ptr : option loc) (w : @World U)
    : loc * @World U * list event :=
  match ptr with
  | Some l => (l, w, [])
  | None => Controller_create_state this w
  end.

(** [if (ret == MHD_YES) state->response_sent = true;] *)
Definition mark_sent (qret : Z) (st : ConnectionState) : ConnectionState :=
  if qret =? MHD_YES then set_response_sent true st else st.

(** What the activations [acts] do to a connection whose state caches a
    non-empty response, [q] being the queueing of that response: while
    no queueing has succeeded ([sent] false) each activation queues the
    response again, afterwards none queues anything; all return
    [MHD_YES]. *)
Fixpoint resend (q : event) (sent : bool) (acts : list Activation)
    : list (Z * list event) :=
  match acts with
  | [] => []
  | a :: acts' =>
      if sent then (MHD_YES, []) :: resend q true acts'
      else (MHD_YES, [q]) :: resend q (act_qret a =? MHD_YES) acts'
  end.

(** Every controller object is a [DynamicController] that inherits
    [handleComplete] and [create_state] from [Controller]. *)
Definition all_dynamic (objs : gmap cref (@Controller U)) : Prop :=
  ∀ r ctl, objs !! r = Some ctl →
    handleComplete ctl = Controller_handleComplete
    ∧ ∃ createResponse,
        handleRequest ctl
          = DynamicController_handleRequest Controller_create_state createResponse.

(** The non-null entries of the controller vector point to objects (they
    are shared pointers, so their objects are alive). *)
Definition registered (objs : gmap cref (@Controller U))
    (server : @WebServer U) : Prop :=
  ∀ r, Some r ∈ controllers server → is_Some (objs !! r).

(** The states on the heap while a connection is served, [h0] being the
    heap before its first activation: with an empty slot the heap is
    [h0]; otherwise the slot holds an address outside [h0] at which the
    connection's state lives, owned by a controller object. *)
Definition connection_heap (objs : gmap cref (@Controller U))
    (h0 : gmap loc ConnectionState) (ptr : option loc) (w : @World U) : Prop :=
  match ptr with
  | None => states w = h0
  | Some l =>
      h0 !! l = None
      ∧ ∃ st, states w = <[l := st]> h0 ∧ is_Some (objs !! conroller st)
  end.

(** The outcome of [request_handler] when it answers 403 itself. *)
Definition forbidden (c : Call) (ptr : option loc) (qret : Z)
    (w : @World U) : @Outcome U :=
  mkOutcome qret ptr w [EvQueueResponse MHD_HTTP_FORBIDDEN "" []].

(** The outcome of [request_handler] when it answers 404 itself, after
    the effects [evs] of the scan. *)
Definition not_found (evs : list event) (ptr : option loc) (qret : Z)
    (w : @World U) : @Outcome U :=
  mkOutcome qret ptr w (evs ++ [EvQueueResponse MHD_HTTP_NOT_FOUND "" []]).

End Vocabulary.

(** ** Sample users of the library *)

Module Sample.

(** The program state of the samples is the wall clock. *)
Definition clock := nat.

(** The controller of examples/sample1.cpp: it serves GET on "/", and its
    page shows the time, so no two calls build the same text. *)
Definition MyController_validPath (path meth : string) : bool :=
  String.eqb path "/" && String.eqb "GET" meth.

Definition MyController_createResponse : @createResponse_t clock :=
  fun _ st now =>
    (mkCreated ResponseParams_default
       ("Hello World at " +:+ pretty now) (request_data st),
     S now).

Definition MyController : @Controller clock :=
  DynamicController MyController_validPath MyController_createResponse.

(** A controller that takes uploads on POST "/upload" and echoes them with
    a content-type header and an unusual [response_code]. *)
Definition Upload_validPath (path meth : string) : bool :=
  String.eqb path "/upload" && String.eqb "POST" meth.

Definition Upload_createResponse : @createResponse_t clock :=
  fun c st now =>
    (mkCreated
       (mkResponseParams 418 "" [("Content-Type"%string, "text/plain"%string)])
       (default ""%string (upload_data c))
       (request_data st +:+ default ""%string (upload_data c)),
     S now).

Definition Upload : @Controller clock :=
  DynamicController Upload_validPath Upload_createResponse.

(** A controller that refuses every request with the abort code. *)
Definition Refuse_createResponse : @createResponse_t clock :=
  fun _ st now =>
    (mkCreated (mkResponseParams MHD_NO "" []) "never sent" (request_data st),
     S now).

Definition Refuse : @Controller clock :=
  DynamicController (fun _ _ => true) Refuse_createResponse.

(** A controller whose page is empty. *)
Definition Blank_createResponse : @createResponse_t clock :=
  fun _ st now => (mkCreated ResponseParams_default "" (request_data st), S now).

Definition Blank : @Controller clock :=
  DynamicController (fun _ _ => true) Blank_createResponse.

Definition objects : gmap cref (@Controller clock) :=
  <[0%nat := MyController]> (<[1%nat := Upload]> (<[2%nat := Refuse]>
    (<[3%nat := Blank]> ∅))).

(** [inet_ntop] for the samples: dotted decimal for four IPv4 bytes
    written at the start of the buffer, the buffer untouched otherwise. *)
Definition inet_ntop (af : Z) (addr : list Z) (buf : string) : string :=
  match addr with
  | [a; b; c; d] =>
      if af =? AF_INET then
        let text := pretty a +:+ "." +:+ pretty b +:+ "." +:+ pretty c
                      +:+ "." +:+ pretty d in
        text +:+ String.substring (String.length text)
                   (String.length buf - String.length text) buf
      else buf
  | _ => buf
  end.

Definition peer_v4 (a b c d : Z) : MHD_Connection :=
  mkConnection (Some (Some (mkSockaddr AF_INET [a; b; c; d]))).

(** A peer on a UNIX-domain socket ([AF_UNIX] is 1). *)
Definition peer_unix : MHD_Connection :=
  mkConnection (Some (Some (mkSockaddr 1 []))).

Definition get (conn : MHD_Connection) (path : string) : Call :=
  mkCall conn path "GET" "HTTP/1.1" None.

Definition post (conn : MHD_Connection) (path : string)
    (body : option string) : Call :=
  mkCall conn path "POST" "HTTP/1.1" body.

(** A server with the default options: every source is allowed. *)
Definition open_server : @WebServer clock :=
  mkWebServer 8080 options_default [Some 0%nat; None; Some 1%nat; Some 3%nat].

(** A server that admits one address only. *)
Definition closed_server : @WebServer clock :=
  mkWebServer 8080
    (mkOptions false "" "" None None ["10.0.0.1"%string])
    [Some 0%nat; Some 1%nat].

(** An operating system on which the port is taken: sockets are created,
    every [bind] fails. *)
Definition port_taken (i : nat) : Answers :=
  mkAnswers None (3 + Z.of_nat i) 0 (-1) 0 None.

(** An operating system on which the socket calls succeed and the
    transport engine never starts. *)
Definition engine_broken (i : nat) : Answers :=
  mkAnswers None (3 + Z.of_nat i) 0 0 0 None.

(** Three failed binds, then success (daemon handle 7). *)
Definition three_bind_failures (i : nat) : Answers :=
  if (i <? 3)%nat then mkAnswers None (3 + Z.of_nat i) 0 (-1) 0 None
  else mkAnswers None (3 + Z.of_nat i) 0 0 0 (Some 7%nat).

(** A peer on the loopback address. *)
Definition localhost : MHD_Connection := peer_v4 127 0 0 1.

(** The initial program state at clock 5, and the same with the wait
    ceiling lowered to 1. *)
Definition at_five : @World clock := World_init 5%nat.

Definition ceiling_one : @World clock := mkWorld ∅ (0, 10000000) 1 5%nat.

(** Two activations of an upload for which no data arrives. *)
Definition two_empty_posts : list Activation :=
  [mkActivation (post localhost "/upload" None) MHD_YES;
   mkActivation (post localhost "/upload" None) MHD_YES].

End Sample.

(** ** Registration and the supervising loop *)

Section Supervisor.

Context {U : Type}.

(** [WebServer::addController]: [controllers.emplace_back(controller)];
    the shared pointer may be null. *)
Definition addController (server : @WebServer U) (controller : option cref)
    : @WebServer U :=
  mkWebServer (port_ server) (options_ server)
    (controllers server ++ [controller]).

(** What [is_daemon_alive] learns from the outside: the result of
    [MHD_get_daemon_info(daemon_, MHD_DAEMON_INFO_LISTEN_FD)], null or a
    descriptor, and what [fcntl(fd, F_GETFL)] answers for it. *)
Record Probe := mkProbe {
  fd_info : option Z;
  fcntl_ret : Z;
}.

(** [WebServer::is_daemon_alive]. *)
Definition is_daemon_alive (p : Probe) : bool :=
  match fd_info p with
  | None => false
  | Some _ => if fcntl_ret p =? -1 then false else true
  end.

(** The [while(true)] loop of [WebServer::start].  [probes c] is what
    [is_daemon_alive] sees in cycle [c]; [oss k] answers the passes of the
    [k]-th call of [start_daemon]; [fuel_d] is the fuel handed to each of
    these calls.  The result is [daemon_], the user's state and the
    effects up to the [break]; [None] when the fuel ran out first or a
    [start_daemon] did not return. *)
Fixpoint start_loop (fuel fuel_d : nat) (server : @WebServer U)
    (probes : nat -> Probe) (oss : nat -> nat -> Answers)
    (cycle calls : nat) (daemon_ : option nat) (u : U)
    : option (option nat * U * list daemon_event) :=
  match fuel with
  | O => None
  | S fuel' =>
      (* nanosleep(&sleeptime, nullptr);
         if(not is_daemon_alive()) start_daemon(); *)
      '(daemon_, calls, tr) ←
        (if is_daemon_alive (probes cycle) then Some (daemon_, calls, [DSleep 1])
         else
           '(d, tr) ← start_daemon fuel_d server daemon_ (oss calls);
           Some (d, S calls, DSleep 1 :: tr));
      let continue u :=
        '(d, u', tr') ← start_loop fuel' fuel_d server probes oss (S cycle)
                          calls daemon_ u;
        Some (d, u', tr ++ tr') in
      match handler_should_terminate (options_ server) with
      | Some sh_callback =>
          let '(stop, u) := sh_callback u in
          if stop then Some (daemon_, u, tr) else continue u
      | None => continue u
      end
  end.

(** [WebServer::start]: the return value ([true], as an [int]), the
    final [daemon_], the user's state and the effects. *)
Definition start (fuel fuel_d : nat) (server : @WebServer U)
    (probes : nat -> Probe) (oss : nat -> nat -> Answers)
    (daemon_ : option nat) (u : U)
    : option (Z * option nat * U * list daemon_event) :=
  '(d, tr0) ← start_daemon fuel_d server daemon_ (oss 0%nat);
  '(d', u', tr) ← start_loop fuel fuel_d server probes oss 0 1 d u;
  Some (1, d', u', tr0 ++ tr ++ stop_daemon d').

(** The first [n] cycles of the [while(true)] loop of [WebServer::start],
    or fewer when the handler ends the loop before: [daemon_], the number
    of [start_daemon] calls so far, the user's state, whether the loop
    was left by [break], and the effects.  The cycle is that of
    [start_loop]; where [start_loop] has no result because the loop goes
    on, this function shows the loop so far. *)
Fixpoint start_loop_cycles (n fuel_d : nat) (server : @WebServer U)
    (probes : nat -> Probe) (oss : nat -> nat -> Answers)
    (cycle calls : nat) (daemon_ : option nat) (u : U)
    : option (option nat * nat * U * bool * list daemon_event) :=
  match n with
  | O => Some (daemon_, calls, u, false, [])
  | S n' =>
      '(daemon_, calls, tr) ←
        (if is_daemon_alive (probes cycle) then Some (daemon_, calls, [DSleep 1])
         else
           '(d, tr) ← start_daemon fuel_d server daemon_ (oss calls);
           Some (d, S calls, DSleep 1 :: tr));
      let continue u :=
        '(d, c, u', broke, tr') ← start_loop_cycles n' fuel_d server probes oss
                                    (S cycle) calls daemon_ u;
        Some (d, c, u', broke, tr ++ tr') in
      match handler_should_terminate (options_ server) with
      | Some sh_callback =>
          let '(stop, u) := sh_callback u in
          if stop then Some (daemon_, calls, u, true, tr) else continue u
      | None => continue u
      end
  end.

(** [WebServer::start] up to the end of the [n]-th cycle of its loop:
    the first [start_daemon], then [start_loop_cycles]. *)
Definition start_cycles (n fuel_d : nat) (server : @WebServer U)
    (probes : nat -> Probe) (oss : nat -> nat -> Answers)
    (daemon_ : option nat) (u : U)
    : option (option nat * nat * U * bool * list daemon_event) :=
  '(d, tr0) ← start_daemon fuel_d server daemon_ (oss 0%nat);
  '(d', c, u', broke, tr) ← start_loop_cycles n fuel_d server probes oss 0 1 d u;
  Some (d', c, u', broke, tr0 ++ tr).

(** The server with another [bind_address]. *)
Definition with_bind_address (address : string) (server : @WebServer U)
    : @WebServer U :=
  mkWebServer (port_ server)
    (mkOptions (bind_loopback (options_ server)) address
       (bind_interface (options_ server)) (certificate (options_ server))
       (handler_should_terminate (options_ server))
       (allowed_ips (options_ server)))
    (controllers server).

(** Effects on one descriptor: it is what [socket] returned, it is
    closed, it is handed to [MHD_start_daemon]. *)
Definition is_DSocket_of (fd : Z) (e : daemon_event) : bool :=
  match e with DSocket fd' => fd' =? fd | _ => false end.

Definition is_DClose_of (fd : Z) (e : daemon_event) : bool :=
  match e with DClose fd' => fd' =? fd | _ => false end.

Definition is_DStartDaemon_of (fd : Z) (e : daemon_event) : bool :=
  match e with DStartDaemon _ fd' _ => fd' =? fd | _ => false end.

(** [MHD_start_daemon] returned a daemon. *)
Definition is_started (e : daemon_event) : bool :=
  match e with DStartDaemon _ _ (Some _) => true | _ => false end.

Definition is_DBind (e : daemon_event) : bool :=
  match e with DBind _ _ _ _ => true | _ => false end.

(** A pass of [start_daemon] that gets as far as [MHD_start_daemon]:
    none of [socket], [setsockopt] (when an interface is configured),
    [bind] and [listen] fails. *)
Definition reaches_engine (o : @options_t U) (a : Answers) : Prop :=
  socket_ret a ≠ -1
  ∧ (bind_interface o ≠ ""%string → 0 ≤ setsockopt_ret a)
  ∧ bind_ret a ≠ -1
  ∧ listen_ret a ≠ -1.

Definition is_DClose (e : daemon_event) : bool :=
  match e with DClose _ => true | _ => false end.

(** [socket] returned a descriptor. *)
Definition is_DSocket_ok (e : daemon_event) : bool :=
  match e with DSocket fd => negb (fd =? -1) | _ => false end.

End Supervisor.

(** ** The revision of src/include/lmhttpd.hpp

    The header as it was before [ConnectionState]: a controller has two
    virtual methods, [DynamicController::handleRequest] builds and queues
    a response at every activation, and the server has no allow-list. *)

Module Include.

Section Include.

Context {U : Type}.

(** [ResponseParams() = default] of this revision: the code starts at
    [MHD_HTTP_OK]. *)
Definition ResponseParams_default : ResponseParams :=
  {| response_code := MHD_HTTP_OK; response_message := ""; headers := [] |}.

(** The user's [createResponse]: the returned parameters and the text
    written to the stream. *)
Definition createResponse_t : Type := Call -> U -> ResponseParams * string * U.

(** [DynamicController::handleRequest]: the return value, the user's
    state and the effects; [qret] is the answer of [MHD_queue_response]. *)
Definition DynamicController_handleRequest (createResponse : createResponse_t)
    (this : cref) (c : Call) (qret : Z) (u : U) : Z * U * list event :=
  let '(response_params, response_str, u) := createResponse c u in
  (qret, u,
   [EvCreateResponse this;
    EvQueueResponse (response_code response_params) response_str
      (headers response_params)]).

(** The transport activates the handler of one controller repeatedly. *)
Fixpoint run_handler (createResponse : createResponse_t) (this : cref)
    (acts : list Activation) (u : U) : list (Z * list event) * U :=
  match acts with
  | [] => ([], u)
  | a :: acts' =>
      let '(r, u, tr) :=
        DynamicController_handleRequest createResponse this (act_call a)
          (act_qret a) u in
      let '(rs, u) := run_handler createResponse this acts' u in
      ((r, tr) :: rs, u)
  end.

End Include.

End Include.

(** ** The revision of DynamicController::handleRequest without the wait
    counter

    The same method one revision earlier: the state and the cache are
    there, the branch for a POST without data returns at once. *)

Module Uncounted.

Section Uncounted.

Context {U : Type}.

Definition DynamicController_handleRequest
    (create_state_v : cref -> @World U -> loc * @World U * list event)
    (createResponse : @createResponse_t U)
    (this : cref) (c : Call) (ptr : option loc) (qret : Z) (w : @World U)
    : option (@Outcome U) :=
  let '(l, w, tr) :=
    match ptr with
    | Some l => (l, w, [])
    | None => create_state_v this w
    end in
  state ← states w !! l;
  if negb (response_sent state) then
    if String.eqb (method c) "POST"
       && bool_decide (upload_data c = None)
       && String.eqb (response_data state) ""
    then
      (* return MHD_YES; *)
      Some (mkOutcome MHD_YES (Some l) w tr)
    else
      let built :=
        if String.eqb (response_data state) "" then
          let '(cr, u) := createResponse c state (user w) in
          let state := set_request_data (cr_request_data cr) state in
          let w := set_user u w in
          if response_code (cr_params cr) =? MHD_NO then
            inl (update_state l state w)
          else
            inr (set_response (cr_response cr) (headers (cr_params cr)) state,
                 w, [EvCreateResponse this])
        else inr (state, w, [])
      in
      match built with
      | inl w => Some (mkOutcome MHD_NO (Some l) w (tr ++ [EvCreateResponse this]))
      | inr (state, w, tr') =>
          let q := EvQueueResponse MHD_HTTP_OK (response_data state)
                     (response_headers state) in
          let state :=
            if qret =? MHD_YES then set_response_sent true state else state in
          Some (mkOutcome MHD_YES (Some l) (update_state l state w)
                  (tr ++ tr' ++ [q]))
      end
  else
    Some (mkOutcome MHD_YES (Some l) w tr).

End Uncounted.

End Uncounted.

(** ** Further vocabulary *)

Section Vocabulary2.

Context {U : Type}.

(** Two connection states that differ at most in [response_sent]. *)
Definition same_but_sent (st1 st2 : ConnectionState) : Prop :=
  set_response_sent false st1 = set_response_sent false st2.

(** The character NUL occurs in a string. *)
Fixpoint has_nul (s : string) : bool :=
  match s with
  | EmptyString => false
  | String a rest => Ascii.eqb a Ascii.zero || has_nul rest
  end.

(** The owner of the state in the slot can be read off the effects
    [evs] so far: the state is alive, and it was created by the
    controller that its [conroller] member refers to. *)
Definition owner_traced (ptr : option loc) (w : @World U) (evs : list event)
    : Prop :=
  match ptr with
  | None => True
  | Some l => ∃ st, states w !! l = Some st ∧ EvNew l (conroller st) ∈ evs
  end.

(** The user's state after [n] polls of the termination handler. *)
Fixpoint polled (sh_callback : U -> bool * U) (n : nat) (u : U) : U :=
  match n with
  | O => u
  | S n' => polled sh_callback n' (sh_callback u).2
  end.

End Vocabulary2.

(** ** Further samples *)

Module Sample2.

Import Sample.

(** A server with a certificate and a device to bind to. *)
Definition tls_server : @WebServer clock :=
  mkWebServer 8443
    (mkOptions true "192.0.2.1" "eth0" (Some ("key"%string, "cert"%string))
       None ["*"%string])
    [Some 0%nat].

(** A server whose termination handler answers true from clock 8 on. *)
Definition stopping_server : @WebServer clock :=
  mkWebServer 8080
    (mkOptions false "" "" None (Some (fun now => ((8 <=? now)%nat, S now)))
       ["*"%string])
    [Some 0%nat].

(** A server told to bind to "::1", which [inet_pton(AF_INET, ...)]
    rejects. *)
Definition v6_literal_server : @WebServer clock :=
  mkWebServer 8080 (mkOptions false "::1" "" None None ["*"%string])
    [Some 0%nat].

(** A server told to bind to 192.0.2.1, and the operating system that
    takes the text and starts the engine at once. *)
Definition literal_server : @WebServer clock :=
  mkWebServer 8080 (mkOptions false "192.0.2.1" "" None None ["*"%string])
    [Some 0%nat].

Definition takes_literal (i : nat) : Answers :=
  mkAnswers (Some [192; 0; 2; 1]) 3 0 0 0 (Some 9%nat).

(** The engine starts at the third pass (daemon handle 9). *)
Definition engine_third_pass (i : nat) : Answers :=
  mkAnswers None (3 + Z.of_nat i) 0 0 0 (if (i <? 2)%nat then None else Some 9%nat).

(** Sockets cannot be created at even passes, binding fails at passes 1
    and 3, the engine starts at pass 5. *)
Definition flaky (i : nat) : Answers :=
  if Nat.even i then mkAnswers None (-1) 0 0 0 None
  else if (i <? 4)%nat then mkAnswers None (3 + Z.of_nat i) 0 (-1) 0 None
  else mkAnswers None (3 + Z.of_nat i) 0 0 0 (Some 9%nat).

(** The listening descriptor is lost from the third cycle on. *)
Definition dies_at_three (cycle : nat) : Probe :=
  if (cycle <? 3)%nat then mkProbe (Some 6) 0 else mkProbe (Some 6) (-1).

(** The page of [MyController] for the revision of the include file, with
    status 202. *)
Definition Old_createResponse : @Include.createResponse_t clock :=
  fun _ now =>
    (mkResponseParams 202 "" [("X-Clock"%string, pretty now)],
     "Hello World at " +:+ pretty now, S now).

(** Connection states at address 0: one whose response has been sent,
    one that waits with the counter just below the wrap-around, and one
    that has waited twice. *)
Definition sent_state : ConnectionState :=
  mkConnectionState 0%nat "" true [] "done" 0.

Definition near_wrap_state : ConnectionState :=
  mkConnectionState 1%nat "" false [] "" (2 ^ 32 - 2).

Definition waited_twice_state : ConnectionState :=
  mkConnectionState 1%nat "" false [] "" 2.

(** The program state at clock 5 with one connection state, at address
    0, and the given wait ceiling. *)
Definition world_with (st : ConnectionState) (loops : Z) : @World clock :=
  mkWorld {[0%nat := st]} (0, 10000000) loops 5%nat.

(** The listening descriptor stays valid. *)
Definition always_alive (cycle : nat) : Probe := mkProbe (Some 6) 0.

Definition upload_abc : Activation :=
  mkActivation (post localhost "/upload" (Some "abc"%string)) MHD_YES.

End Sample2.

(** * Properties *)

Section Properties.

Context {U : Type}.
Variable inet_ntop : Z -> list Z -> string -> string.

Implicit Types (w : @World U) (o : @options_t U) (server : @WebServer U).
Implicit Types (objs : gmap cref (@Controller U)).

(** ** Effects compose *)

Lemma emit_nil (out : option (@Outcome U)) : emit [] out = out.
Proof. by destruct out as [[]|]. Qed.

Lemma emit_emit evs1 evs2 (out : option (@Outcome U)) :
  emit evs1 (emit evs2 out) = emit (evs1 ++ evs2) out.
Proof. destruct out as [[]|]; simpl; [|done]. by rewrite app_assoc. Qed.

Lemma emit_Some evs r s w tr :
  emit evs (Some (mkOutcome r s w tr)) = Some (mkOutcome r s w (evs ++ tr)).
Proof. done. Qed.

(** ** The allow-list *)

Lemma allow_entry_true (ip it : string) :
  (if String.eqb it "all" || String.eqb it "*" then true else String.eqb it ip)
    = true ↔ it = "*"%string ∨ it = "all"%string ∨ it = ip.
Proof.
  destruct (String.eqb_spec it "all") as [->|Hall]; simpl.
  { split; auto. }
  destruct (String.eqb_spec it "*") as [->|Hstar]; simpl.
  { split; auto. }
  rewrite String.eqb_eq. split; [auto|]. by intros [?|[?|?]].
Qed.

Lemma is_allowed_ip_true o (ip : string) :
  is_allowed_ip o ip = true ↔
    "*"%string ∈ allowed_ips o ∨ "all"%string ∈ allowed_ips o
    ∨ ip ∈ allowed_ips o.
Proof.
  unfold is_allowed_ip. rewrite existsb_exists. split.
  - intros (it & Hin & Hit). apply list_elem_of_In in Hin.
    apply allow_entry_true in Hit as [->| [->| ->]]; auto.
  - intros H.
    assert (∃ it, it ∈ allowed_ips o
                  ∧ (it = "*"%string ∨ it = "all"%string ∨ it = ip))
      as (it & Hin & Hit).
    { destruct H as [H|[H|H]]; eexists; (split; [exact H|auto]). }
    exists it. split; [by apply list_elem_of_In|by apply allow_entry_true].
Qed.

(** C4. [is_allowed_ip] answers true when some configured entry is the
    token "*" or the token "all"; otherwise it answers true exactly when
    the address is one of the configured entries, and false for an
    address that is not listed.  The comparisons are equalities of
    strings, so they are exact and case-sensitive. *)
Theorem is_allowed_ip_spec o (ip : string) :
  is_allowed_ip o ip =
    if decide ("*"%string ∈ allowed_ips o ∨ "all"%string ∈ allowed_ips o)
    then true
    else bool_decide (ip ∈ allowed_ips o).
Proof.
  destruct (decide _) as [Hwild|Hnone].
  - apply is_allowed_ip_true. tauto.
  - destruct (is_allowed_ip o ip) eqn:Hip; symmetry.
    + apply is_allowed_ip_true in Hip. apply bool_decide_eq_true_2. tauto.
    + apply bool_decide_eq_false_2. intros Hin.
      apply not_true_iff_false in Hip. apply Hip, is_allowed_ip_true. tauto.
Qed.

Lemma is_allowed_ip_false o (ip : string) :
  is_allowed_ip o ip = false ↔
    ("*"%string ∉ allowed_ips o) ∧ ("all"%string ∉ allowed_ips o)
    ∧ (ip ∉ allowed_ips o).
Proof.
  rewrite <- not_true_iff_false, is_allowed_ip_true. tauto.
Qed.

(** ** Address extraction and admission *)

Lemma connection_ip_no_inet (conn : MHD_Connection) :
  no_inet_peer conn → connection_ip inet_ntop conn = ""%string.
Proof.
  unfold no_inet_peer, connection_ip.
  destruct (client_address_info conn) as [[sa|]|]; [|done..].
  intros [H4 H6].
  destruct (Z.eqb_spec (sa_family sa) AF_INET); [done|].
  by destruct (Z.eqb_spec (sa_family sa) AF_INET6).
Qed.

(** ** The dispatcher *)

(** C5. When the allow-list denies the source address, [request_handler]
    queues the empty 403 response, returns what [MHD_queue_response]
    returned and does nothing else: the slot and the program state are
    untouched and none of its effects is a [validPath], [handleRequest]
    or [createResponse] call. *)
Theorem request_handler_denied_before_dispatch
    objs server (c : Call) (ptr : option loc) (qret : Z) w :
  is_ip_allowed inet_ntop server (connection c) = false →
  ∃ out,
    request_handler inet_ntop objs server c ptr qret w = Some out
    ∧ out = forbidden c ptr qret w
    ∧ trace out = [EvQueueResponse MHD_HTTP_FORBIDDEN "" []]
    ∧ count_events is_dispatch_event (trace out) = 0%nat.
Proof.
  intros Hdeny. unfold request_handler. rewrite Hdeny. simpl.
  eexists. split; [reflexivity|]. by repeat split.
Qed.

Lemma request_handler_scan_passed_over
    objs (pre rest : list (option cref)) (c : Call) ptr qret w :
  Forall (passed_over objs c) pre →
  request_handler_scan objs (pre ++ rest) c ptr qret w =
    emit (passed_over_events c pre) (request_handler_scan objs rest c ptr qret w).
Proof.
  induction 1 as [|[r|] pre Hx _ IH]; simpl.
  - by rewrite emit_nil.
  - destruct Hx as (ctl & Hr & Hv). rewrite Hr. simpl. rewrite Hv.
    by rewrite IH, emit_emit.
  - exact IH.
Qed.

(** C3. For a request from an allowed source, [request_handler] walks the
    controller vector from the front.  If the vector is [pre], then a
    controller [r] whose [validPath] answers true, then [post], and every
    entry of [pre] is null or answers false, the outcome is that of
    [r]'s [handleRequest], preceded by one [validPath] call per non-null
    entry of [pre] and the one on [r]: nothing in [post] is consulted,
    whatever it would answer.  If every entry is null or answers false,
    the outcome is the empty 404 response after those [validPath] calls. *)
Theorem request_handler_first_match
    objs server (c : Call) (ptr : option loc) (qret : Z) w :
  is_ip_allowed inet_ntop server (connection c) = true →
  (∀ pre r ctl post,
     controllers server = pre ++ Some r :: post →
     Forall (passed_over objs c) pre →
     objs !! r = Some ctl →
     validPath ctl (url c) (method c) = true →
     request_handler inet_ntop objs server c ptr qret w =
       emit (passed_over_events c pre
             ++ [EvValidPath r (url c) (method c) true; EvHandleRequest r])
            (handleRequest ctl r c ptr qret w))
  ∧ (Forall (passed_over objs c) (controllers server) →
     request_handler inet_ntop objs server c ptr qret w =
       Some (not_found (passed_over_events c (controllers server)) ptr qret w)).
Proof.
  intros Hallow. unfold request_handler. rewrite Hallow. simpl. split.
  - intros pre r ctl post -> Hpre Hr Hvalid.
    rewrite request_handler_scan_passed_over by done.
    simpl. rewrite Hr. simpl. rewrite Hvalid.
    by rewrite emit_emit.
  - intros Hall.
    rewrite <- (app_nil_r (controllers server)) at 1.
    by rewrite request_handler_scan_passed_over.
Qed.

(** C9 (as amended).  For a peer without an IPv4 or IPv6 address,
    [connection_ip] is the empty string, so [is_ip_allowed] is
    [is_allowed_ip] of the empty string: access is denied exactly when
    no allow-list entry is "*", "all" or the empty string, and then the
    request gets the empty 403 response before any dispatch. *)
Theorem connection_ip_no_inet_peer_admission
    objs server (c : Call) (ptr : option loc) (qret : Z) w :
  no_inet_peer (connection c) →
  connection_ip inet_ntop (connection c) = ""%string
  ∧ (is_ip_allowed inet_ntop server (connection c) = false ↔
       ("*"%string ∉ allowed_ips (options_ server))
       ∧ ("all"%string ∉ allowed_ips (options_ server))
       ∧ (""%string ∉ allowed_ips (options_ server)))
  ∧ (is_ip_allowed inet_ntop server (connection c) = false →
       request_handler inet_ntop objs server c ptr qret w
         = Some (forbidden c ptr qret w)).
Proof.
  intros Hpeer. pose proof (connection_ip_no_inet _ Hpeer) as Hip.
  split; [done|]. split.
  - unfold is_ip_allowed. rewrite Hip. apply is_allowed_ip_false.
  - intros Hdeny. unfold request_handler. by rewrite Hdeny.
Qed.

(** ** One activation of the dynamic controller *)

Section Dynamic.

Variable createResponse : @createResponse_t U.
Variable this : cref.

Abbreviation handle :=
  (DynamicController_handleRequest Controller_create_state createResponse this).

Ltac enter Hat Hst :=
  unfold DynamicController_handleRequest; unfold attach in Hat;
  rewrite Hat; simpl; rewrite Hst; simpl.

Lemma not_awaiting_false (c : Call) (data : string) :
  body_ready c ∨ data ≠ ""%string →
  String.eqb (method c) "POST" && bool_decide (upload_data c = None)
    && String.eqb data "" = false.
Proof.
  intros [[H|H]|H].
  - apply String.eqb_neq in H. by rewrite H.
  - rewrite (bool_decide_eq_false_2 _ H). by rewrite andb_false_r.
  - apply String.eqb_neq in H. rewrite H. by rewrite andb_false_r.
Qed.

(** The response has been sent: nothing happens. *)
Lemma handle_sent (c : Call) ptr qret w l w0 tr0 st :
  attach this ptr w = (l, w0, tr0) →
  states w0 !! l = Some st →
  response_sent st = true →
  handle c ptr qret w = Some (mkOutcome MHD_YES (Some l) w0 tr0).
Proof. intros Hat Hst Hsent. enter Hat Hst. by rewrite Hsent. Qed.

(** No body yet and nothing cached: count, then abort or sleep. *)
Lemma handle_awaiting (c : Call) ptr qret w l w0 tr0 st :
  attach this ptr w = (l, w0, tr0) →
  states w0 !! l = Some st →
  response_sent st = false →
  response_data st = ""%string →
  method c = "POST"%string →
  upload_data c = None →
  let n := wrap32 (request_waiting_loop_counter st + 1) in
  let w1 := update_state l (set_request_waiting_loop_counter n st) w0 in
  handle c ptr qret w =
    Some (if waiting_loops w0 <? n
          then mkOutcome MHD_NO (Some l) w1 tr0
          else mkOutcome MHD_YES (Some l) w1
                 (tr0 ++ [EvNanosleep (waiting_usec_sleep w0).1
                                      (waiting_usec_sleep w0).2])).
Proof.
  intros Hat Hst Hsent Hdata Hm Hup. enter Hat Hst.
  rewrite Hsent, Hdata, Hm, Hup. simpl.
  destruct (waiting_loops w0 <? _); [done|].
  by destruct (waiting_usec_sleep w0).
Qed.

(** A response is cached and not yet sent: queue it again. *)
Lemma handle_cached (c : Call) ptr qret w l w0 tr0 st :
  attach this ptr w = (l, w0, tr0) →
  states w0 !! l = Some st →
  response_sent st = false →
  response_data st ≠ ""%string →
  handle c ptr qret w =
    Some (mkOutcome MHD_YES (Some l) (update_state l (mark_sent qret st) w0)
            (tr0 ++ [EvQueueResponse MHD_HTTP_OK (response_data st)
                       (response_headers st)])).
Proof.
  intros Hat Hst Hsent Hdata. enter Hat Hst. rewrite Hsent. simpl.
  rewrite not_awaiting_false by auto.
  apply String.eqb_neq in Hdata. by rewrite Hdata.
Qed.

(** Nothing cached and the body is there: [createResponse] is called and
    answers with the abort code. *)
Lemma handle_build_abort (c : Call) ptr qret w l w0 tr0 st cr u :
  attach this ptr w = (l, w0, tr0) →
  states w0 !! l = Some st →
  response_sent st = false →
  response_data st = ""%string →
  body_ready c →
  createResponse c st (user w0) = (cr, u) →
  response_code (cr_params cr) = MHD_NO →
  handle c ptr qret w =
    Some (mkOutcome MHD_NO (Some l)
            (update_state l (set_request_data (cr_request_data cr) st)
               (set_user u w0))
            (tr0 ++ [EvCreateResponse this])).
Proof.
  intros Hat Hst Hsent Hdata Hready Hcr Hcode. enter Hat Hst.
  rewrite Hsent. simpl. rewrite not_awaiting_false by auto.
  rewrite Hdata. simpl. rewrite Hcr, Hcode. done.
Qed.

(** Nothing cached and the body is there: [createResponse] is called and
    its answer is cached and queued. *)
Lemma handle_build (c : Call) ptr qret w l w0 tr0 st cr u :
  attach this ptr w = (l, w0, tr0) →
  states w0 !! l = Some st →
  response_sent st = false →
  response_data st = ""%string →
  body_ready c →
  createResponse c st (user w0) = (cr, u) →
  response_code (cr_params cr) ≠ MHD_NO →
  let st1 := set_response (cr_response cr) (headers (cr_params cr))
               (set_request_data (cr_request_data cr) st) in
  handle c ptr qret w =
    Some (mkOutcome MHD_YES (Some l)
            (update_state l (mark_sent qret st1) (set_user u w0))
            (tr0 ++ [EvCreateResponse this;
                     EvQueueResponse MHD_HTTP_OK (cr_response cr)
                       (headers (cr_params cr))])).
Proof.
  intros Hat Hst Hsent Hdata Hready Hcr Hcode. enter Hat Hst.
  rewrite Hsent. simpl. rewrite not_awaiting_false by auto.
  rewrite Hdata. simpl. rewrite Hcr.
  apply Z.eqb_neq in Hcode. rewrite Hcode. done.
Qed.

(** ** The wait for the body *)

Lemma wrap32_small (z : Z) : 0 ≤ z < 2 ^ 32 → wrap32 z = z.
Proof. intros. unfold wrap32. by apply Z.mod_small. Qed.

Lemma attach_Some l w : attach this (Some l) w = (l, w, []).
Proof. done. Qed.

Lemma update_state_lookup l st w : states (update_state l st w) !! l = Some st.
Proof. simpl. apply lookup_insert_eq. Qed.

(** From a state that is waiting with counter [k], a run of activations
    without body counts on from [k]: activation [i] aborts iff
    [k + i + 1] exceeds the ceiling and sleeps otherwise. *)
Lemma run_awaiting (acts : list Activation) : ∀ w l st k,
  states w !! l = Some st →
  response_sent st = false →
  response_data st = ""%string →
  request_waiting_loop_counter st = k →
  0 ≤ k →
  k + Z.of_nat (length acts) < 2 ^ 32 →
  Forall awaiting_body acts →
  ∃ rs w',
    run_connection handle acts (Some l) w = Some (rs, Some l, w')
    ∧ length rs = length acts
    ∧ (∀ (i : nat) r tr, rs !! i = Some (r, tr) →
         if decide (k + Z.of_nat i < waiting_loops w)
         then r = MHD_YES
              ∧ tr = [EvNanosleep (waiting_usec_sleep w).1 (waiting_usec_sleep w).2]
         else r = MHD_NO ∧ tr = [])
    ∧ states w' !! l =
        Some (set_request_waiting_loop_counter (k + Z.of_nat (length acts)) st)
    ∧ waiting_loops w' = waiting_loops w
    ∧ waiting_usec_sleep w' = waiting_usec_sleep w.
Proof.
  induction acts as [|a acts IH]; intros w l st k Hst Hsent Hdata Hk Hk0 Hlen Hall.
  - exists [], w. simpl. repeat split; try done.
    rewrite Z.add_0_r, Hst, <- Hk. by destruct st.
  - apply Forall_cons in Hall as [[Hm Hup] Hall]. simpl in Hlen.
    pose proof (handle_awaiting (act_call a) (Some l) (act_qret a) w l w [] st
                  (attach_Some l w) Hst Hsent Hdata Hm Hup) as Hstep.
    simpl in Hstep. rewrite Hk, wrap32_small in Hstep by lia.
    set (st1 := set_request_waiting_loop_counter (k + 1) st) in *.
    set (w1 := update_state l st1 w) in *.
    destruct (IH w1 l st1 (k + 1)) as (rs & w' & Hrun & Hlen' & Hrs & Hfin & Hwl & Hsl);
      [apply update_state_lookup|done|done|done|lia|lia|done|].
    simpl. rewrite Hstep.
    destruct (Z.ltb_spec (waiting_loops w) (k + 1)) as [Hgt|Hle]; simpl;
      rewrite Hrun; simpl; eexists _, w'; (split; [reflexivity|]);
      (split; [simpl; by rewrite Hlen'|]);
      (split; [|split; [|by split]]).
    + intros [|i] r tr Hi; simpl in Hi.
      * injection Hi as <- <-. rewrite decide_False by lia. done.
      * specialize (Hrs i r tr Hi). simpl in Hrs.
        rewrite decide_False by lia. rewrite decide_False in Hrs by lia. done.
    + rewrite Hfin. f_equal. unfold set_request_waiting_loop_counter. simpl.
      f_equal. lia.
    + intros [|i] r tr Hi; simpl in Hi.
      * injection Hi as <- <-. rewrite decide_True by lia. done.
      * specialize (Hrs i r tr Hi). simpl in Hrs.
        replace (k + Z.of_nat (S i)) with (k + 1 + Z.of_nat i) by lia. done.
    + rewrite Hfin. f_equal. unfold set_request_waiting_loop_counter. simpl.
      f_equal. lia.
Qed.

(** C1. On a new connection, a run of activations of a POST request for
    which no upload data has arrived (and so nothing is cached) goes as
    follows.  Activation number [i] (from 0) raises the wait counter of
    the connection state to [i + 1]; while that does not exceed
    [waiting_loops] it sleeps [waiting_usec_sleep] and returns [MHD_YES];
    once it does, the activation returns [MHD_NO] without sleeping.  So a
    ceiling of [n] gives [n] waiting activations and aborts on the next
    one; a ceiling of 1 gives exactly one.  The statics start at 300
    loops and 10 ms. *)
Theorem handleRequest_waits_for_body w (acts : list Activation) :
  Forall awaiting_body acts →
  Z.of_nat (length acts) < 2 ^ 32 →
  let l := fresh (dom (states w)) in
  let new (i : nat) := if i is O then [EvNew l this] else [] in
  let sleep := EvNanosleep (waiting_usec_sleep w).1 (waiting_usec_sleep w).2 in
  ∃ rs ptr' w',
    run_connection handle acts None w = Some (rs, ptr', w')
    ∧ length rs = length acts
    ∧ (∀ (i : nat) r tr, rs !! i = Some (r, tr) →
         if decide (Z.of_nat i < waiting_loops w)
         then r = MHD_YES ∧ tr = new i ++ [sleep]
         else r = MHD_NO ∧ tr = new i)
    ∧ (acts ≠ [] →
         ptr' = Some l
         ∧ states w' !! l =
             Some (set_request_waiting_loop_counter (Z.of_nat (length acts))
                     (ConnectionState_new this)))
    ∧ (∀ u : U, waiting_loops (World_init u) = 300
                ∧ waiting_usec_sleep (World_init u) = (0, 10000000)).
Proof.
  intros Hall Hlen l new sleep.
  destruct acts as [|a acts].
  { exists [], None, w. simpl. repeat split; done. }
  apply Forall_cons in Hall as [[Hm Hup] Hall]. simpl in Hlen.
  set (st0 := ConnectionState_new this).
  set (w0 := set_states (<[l := st0]> (states w)) w).
  assert (attach this None w = (l, w0, [EvNew l this])) as Hat by done.
  assert (states w0 !! l = Some st0) as Hst0 by apply lookup_insert_eq.
  pose proof (handle_awaiting (act_call a) None (act_qret a) w l w0 _ st0
                Hat Hst0 eq_refl eq_refl Hm Hup) as Hstep.
  simpl in Hstep. rewrite wrap32_small in Hstep by (simpl; lia).
  change (0 + 1) with 1 in Hstep.
  set (st1 := set_request_waiting_loop_counter 1 st0) in *.
  set (w1 := update_state l st1 w0) in *.
  destruct (run_awaiting acts w1 l st1 1)
    as (rs & w' & Hrun & Hlen' & Hrs & Hfin & _);
    [apply update_state_lookup|done|done|done|lia|lia|done|].
  change (waiting_loops w1) with (waiting_loops w) in Hrs.
  change (waiting_usec_sleep w1) with (waiting_usec_sleep w) in Hrs.
  simpl. rewrite Hstep.
  destruct (Z.ltb_spec (waiting_loops w) 1) as [Hgt|Hle]; simpl;
    rewrite Hrun; simpl; eexists _, (Some l), w'; (split; [reflexivity|]);
    (split; [simpl; by rewrite Hlen'|]);
    (split; [|split; [intros _; split; [done|]|done]]).
  - intros [|i] r tr Hi; simpl in Hi.
    + injection Hi as <- <-. rewrite decide_False by lia. done.
    + specialize (Hrs i r tr Hi). simpl in Hrs.
      rewrite decide_False by lia. rewrite decide_False in Hrs by lia. done.
  - rewrite Hfin. f_equal. unfold set_request_waiting_loop_counter. simpl.
    f_equal. lia.
  - intros [|i] r tr Hi; simpl in Hi.
    + injection Hi as <- <-. rewrite decide_True by lia. done.
    + specialize (Hrs i r tr Hi). simpl in Hrs.
      replace (Z.of_nat (S i)) with (1 + Z.of_nat i) by lia. done.
  - rewrite Hfin. f_equal. unfold set_request_waiting_loop_counter. simpl.
    f_equal. lia.
Qed.

(** ** The cached response *)

Lemma count_events_app (p : event → bool) (tr1 tr2 : list event) :
  count_events p (tr1 ++ tr2) = (count_events p tr1 + count_events p tr2)%nat.
Proof. induction tr1 as [|e tr1 IH]; simpl; [done|]. rewrite IH. lia. Qed.

Lemma attach_trace ptr w l w0 tr0 :
  attach this ptr w = (l, w0, tr0) →
  tr0 = (if ptr is None then [EvNew l this] else []).
Proof. destruct ptr; simpl; intros [= <- <- <-]; done. Qed.

Lemma resend_no_createResponse (q : event) (acts : list Activation) :
  is_EvCreateResponse q = false →
  ∀ sent, count_events is_EvCreateResponse (all_events (resend q sent acts)) = 0%nat.
Proof.
  intros Hq. unfold all_events.
  induction acts as [|a acts IH]; intros [|]; simpl; [done..| |].
  - apply IH.
  - rewrite Hq. apply IH.
Qed.

Lemma mark_sent_response_sent qret st :
  response_sent st = false →
  response_sent (mark_sent qret st) = (qret =? MHD_YES).
Proof. intros H. unfold mark_sent. by destruct (qret =? MHD_YES). Qed.

Lemma mark_sent_response qret st :
  response_data (mark_sent qret st) = response_data st
  ∧ response_headers (mark_sent qret st) = response_headers st
  ∧ conroller (mark_sent qret st) = conroller st.
Proof. unfold mark_sent. by destruct (qret =? MHD_YES). Qed.

(** With a non-empty response cached, a run is [resend]: no call of
    [createResponse], the cached text and headers stay as they are. *)
Lemma run_cached (acts : list Activation) : ∀ w l st,
  states w !! l = Some st →
  response_data st ≠ ""%string →
  let q := EvQueueResponse MHD_HTTP_OK (response_data st) (response_headers st) in
  ∃ w' st',
    run_connection handle acts (Some l) w
      = Some (resend q (response_sent st) acts, Some l, w')
    ∧ states w' !! l = Some st'
    ∧ response_data st' = response_data st
    ∧ response_headers st' = response_headers st
    ∧ user w' = user w.
Proof.
  induction acts as [|a acts IH]; intros w l st Hst Hdata q.
  { by exists w, st. }
  destruct (response_sent st) eqn:Hsent.
  - pose proof (handle_sent (act_call a) (Some l) (act_qret a) w l w [] st
                  (attach_Some l w) Hst Hsent) as Hstep.
    destruct (IH w l st Hst Hdata) as (w' & st' & Hrun & Hfin).
    rewrite Hsent in Hrun.
    exists w', st'. split; [|done].
    simpl. rewrite Hstep. simpl. fold q in Hrun. by rewrite Hrun.
  - pose proof (handle_cached (act_call a) (Some l) (act_qret a) w l w [] st
                  (attach_Some l w) Hst Hsent Hdata) as Hstep.
    set (st1 := mark_sent (act_qret a) st) in *.
    destruct (mark_sent_response (act_qret a) st) as (Hd1 & Hh1 & _).
    fold st1 in Hd1, Hh1.
    pose proof (mark_sent_response_sent (act_qret a) st Hsent) as Hs1.
    fold st1 in Hs1.
    destruct (IH (update_state l st1 w) l st1) as (w' & st' & Hrun & Hl & Hd & Hh & Hu);
      [apply update_state_lookup|by rewrite Hd1|].
    rewrite Hd1, Hh1, Hs1 in Hrun. fold q in Hrun.
    exists w', st'. split; [|by rewrite Hd, Hh, Hd1, Hh1].
    simpl. rewrite Hstep. simpl. by rewrite Hrun.
Qed.

(** C2 (as amended).  On the first activation at which the body is
    available or not required, nothing has been sent and nothing is
    cached, [createResponse] is called; when it answers with another
    code than the abort code and a non-empty text, text and headers are
    cached and queued with status 200.  Whatever activations follow,
    [createResponse] is not called again (one call in the whole run, the
    user's state stays as that call left it) and the cached text and
    headers stay the same; they are queued again by each activation
    until one queueing has succeeded, and after that the activations
    queue nothing and return [MHD_YES]. *)
Theorem createResponse_cached_and_reused
    (first : Activation) (rest : list Activation) ptr w l w0 tr0 st cr u :
  attach this ptr w = (l, w0, tr0) →
  states w0 !! l = Some st →
  response_sent st = false →
  response_data st = ""%string →
  body_ready (act_call first) →
  createResponse (act_call first) st (user w0) = (cr, u) →
  response_code (cr_params cr) ≠ MHD_NO →
  cr_response cr ≠ ""%string →
  let q := EvQueueResponse MHD_HTTP_OK (cr_response cr) (headers (cr_params cr)) in
  ∃ rs w' st',
    run_connection handle (first :: rest) ptr w = Some (rs, Some l, w')
    ∧ rs = (MHD_YES, tr0 ++ [EvCreateResponse this; q])
             :: resend q (act_qret first =? MHD_YES) rest
    ∧ count_events is_EvCreateResponse (all_events rs) = 1%nat
    ∧ states w' !! l = Some st'
    ∧ response_data st' = cr_response cr
    ∧ response_headers st' = headers (cr_params cr)
    ∧ user w' = u.
Proof.
  intros Hat Hst Hsent Hdata Hready Hcr Hcode Hbody q.
  pose proof (handle_build (act_call first) ptr (act_qret first) w l w0 tr0 st
                cr u Hat Hst Hsent Hdata Hready Hcr Hcode) as Hstep.
  simpl in Hstep.
  set (st1 := set_response (cr_response cr) (headers (cr_params cr))
                (set_request_data (cr_request_data cr) st)) in *.
  set (st2 := mark_sent (act_qret first) st1) in *.
  destruct (mark_sent_response (act_qret first) st1) as (Hd2 & Hh2 & _).
  fold st2 in Hd2, Hh2. simpl in Hd2, Hh2.
  pose proof (mark_sent_response_sent (act_qret first) st1 Hsent) as Hs2.
  fold st2 in Hs2.
  destruct (run_cached rest (update_state l st2 (set_user u w0)) l st2)
    as (w' & st' & Hrun & Hl & Hd & Hh & Hu);
    [apply update_state_lookup|by rewrite Hd2|].
  rewrite Hd2, Hh2, Hs2 in Hrun. fold q in Hrun.
  eexists _, w', st'. split; [|split; [reflexivity|]].
  - simpl. rewrite Hstep. simpl. rewrite Hrun. done.
  - split; [|by rewrite Hd, Hh, Hd2, Hh2].
    unfold all_events. simpl. fold (all_events (resend q (act_qret first =? MHD_YES) rest)).
    rewrite !count_events_app, resend_no_createResponse by done.
    rewrite (attach_trace _ _ _ _ _ Hat). destruct ptr; done.
Qed.

(** C6. When [createResponse] is called (nothing sent, nothing cached,
    the body available or not required) and answers with the abort code
    [MHD_NO], [handleRequest] returns [MHD_NO] at once: its only effect
    after attaching the state is the [createResponse] call, no response
    is queued, and the cached text, the cached headers, the sent flag
    and the wait counter of the connection state are what they were. *)
Theorem createResponse_abort_caches_nothing
    (c : Call) ptr qret w l w0 tr0 st cr u :
  attach this ptr w = (l, w0, tr0) →
  states w0 !! l = Some st →
  response_sent st = false →
  response_data st = ""%string →
  body_ready c →
  createResponse c st (user w0) = (cr, u) →
  response_code (cr_params cr) = MHD_NO →
  ∃ out st',
    handle c ptr qret w = Some out
    ∧ ret out = MHD_NO
    ∧ trace out = tr0 ++ [EvCreateResponse this]
    ∧ count_events is_EvQueueResponse (trace out) = 0%nat
    ∧ slot out = Some l
    ∧ states (world out) !! l = Some st'
    ∧ response_data st' = response_data st
    ∧ response_headers st' = response_headers st
    ∧ response_sent st' = response_sent st
    ∧ request_waiting_loop_counter st' = request_waiting_loop_counter st.
Proof.
  intros Hat Hst Hsent Hdata Hready Hcr Hcode.
  rewrite (handle_build_abort c ptr qret w l w0 tr0 st cr u) by done.
  eexists _, _. split; [reflexivity|]. simpl.
  split; [done|]. split; [done|]. split.
  { rewrite (attach_trace _ _ _ _ _ Hat). by destruct ptr. }
  split; [done|]. split; [apply lookup_insert_eq|]. done.
Qed.

(** Every response that [handleRequest] queues has status 200. *)
Lemma handle_queues_200 (c : Call) ptr qret w out status body hdrs :
  handle c ptr qret w = Some out →
  EvQueueResponse status body hdrs ∈ trace out →
  status = MHD_HTTP_OK.
Proof.
  unfold DynamicController_handleRequest.
  destruct (attach this ptr w) as [[l w0] tr0] eqn:Hat.
  pose proof (attach_trace _ _ _ _ _ Hat) as Htr0.
  unfold attach in Hat. rewrite Hat. simpl.
  destruct (states w0 !! l) as [st|]; [simpl|done].
  assert (EvQueueResponse status body hdrs ∉ tr0) as Hnot.
  { rewrite Htr0. destruct ptr.
    - by intros ?%elem_of_nil.
    - by intros ?%list_elem_of_singleton. }
  repeat case_match; intros [= <-]; simpl; simplify_eq;
    rewrite ?elem_of_app, ?elem_of_cons, ?elem_of_nil;
    intros Hin; decompose [or] Hin; try done; by simplify_eq.
Qed.

(** C10. When [createResponse] answers with any code other than the
    abort code, the response that [handleRequest] queues carries status
    [MHD_HTTP_OK], text and headers being those of the answer; indeed
    no response that [handleRequest] ever queues carries another status.
    The [response_code] of the answer is not transmitted; its default,
    [MHD_YES], is 1 and not 200. *)
Theorem queued_status_is_always_200
    (c : Call) ptr qret w l w0 tr0 st cr u :
  attach this ptr w = (l, w0, tr0) →
  states w0 !! l = Some st →
  response_sent st = false →
  response_data st = ""%string →
  body_ready c →
  createResponse c st (user w0) = (cr, u) →
  response_code (cr_params cr) ≠ MHD_NO →
  ∃ out,
    handle c ptr qret w = Some out
    ∧ trace out = tr0 ++ [EvCreateResponse this;
                          EvQueueResponse MHD_HTTP_OK (cr_response cr)
                            (headers (cr_params cr))]
    ∧ (∀ status body hdrs,
         EvQueueResponse status body hdrs ∈ trace out → status = MHD_HTTP_OK)
    ∧ response_code ResponseParams_default = MHD_YES
    ∧ MHD_YES ≠ MHD_HTTP_OK.
Proof.
  intros Hat Hst Hsent Hdata Hready Hcr Hcode.
  pose proof (handle_build c ptr qret w l w0 tr0 st cr u
                Hat Hst Hsent Hdata Hready Hcr Hcode) as Hstep.
  simpl in Hstep. eexists. split; [exact Hstep|]. split; [done|].
  split; [|done].
  intros status body hdrs Hin. by eapply handle_queues_200.
Qed.

(** ** Totality *)

(** With a live state in the slot (or an empty slot) [handleRequest]
    is defined; it leaves the address in the slot, changes no other
    state on the heap, keeps the owner of the state and deletes nothing. *)
Lemma handle_total (c : Call) ptr qret w l w0 tr0 st :
  attach this ptr w = (l, w0, tr0) →
  states w0 !! l = Some st →
  ∃ out st',
    handle c ptr qret w = Some out
    ∧ slot out = Some l
    ∧ states (world out) = <[l := st']> (states w0)
    ∧ conroller st' = conroller st
    ∧ ∀ l', count_events (is_EvDelete l') (trace out) = 0%nat.
Proof.
  intros Hat Hst.
  assert (∀ l', count_events (is_EvDelete l') tr0 = 0%nat) as Htr0.
  { intros l'. rewrite (attach_trace _ _ _ _ _ Hat). by destruct ptr. }
  destruct (response_sent st) eqn:Hsent.
  { rewrite (handle_sent c ptr qret w l w0 tr0 st) by done.
    eexists _, st. split; [reflexivity|]. simpl.
    by rewrite insert_id. }
  destruct (decide (response_data st = ""%string)) as [Hdata|Hdata]; cycle 1.
  { rewrite (handle_cached c ptr qret w l w0 tr0 st) by done.
    eexists _, _. split; [reflexivity|]. simpl.
    split; [done|]. split; [done|]. split; [apply mark_sent_response|].
    intros l'. by rewrite count_events_app, Htr0. }
  destruct (decide (method c = "POST"%string ∧ upload_data c = None))
    as [[Hm Hup]|Hready].
  { rewrite (handle_awaiting c ptr qret w l w0 tr0 st) by done.
    destruct (_ <? _); eexists _, _; (split; [reflexivity|]); simpl;
      (split; [done|]); (split; [done|]); (split; [done|]); [done|].
    intros l'. rewrite count_events_app, Htr0. by destruct (waiting_usec_sleep w0). }
  assert (body_ready c) as Hr.
  { unfold body_ready. destruct (decide (method c = "POST"%string)); [|by left].
    right. intros ?. by apply Hready. }
  destruct (createResponse c st (user w0)) as [cr u] eqn:Hcr.
  destruct (decide (response_code (cr_params cr) = MHD_NO)) as [Hcode|Hcode].
  - rewrite (handle_build_abort c ptr qret w l w0 tr0 st cr u) by done.
    eexists _, _. split; [reflexivity|]. simpl.
    split; [done|]. split; [done|]. split; [done|].
    intros l'. by rewrite count_events_app, Htr0.
  - rewrite (handle_build c ptr qret w l w0 tr0 st cr u) by done.
    eexists _, _. split; [reflexivity|]. simpl.
    split; [done|]. split; [done|]. split.
    { by destruct (mark_sent_response qret
        (set_response (cr_response cr) (headers (cr_params cr))
           (set_request_data (cr_request_data cr) st))) as (_ & _ & ->). }
    intros l'. by rewrite count_events_app, Htr0.
Qed.

End Dynamic.

(** ** Completion *)

Lemma emit_inv evs (o : option (@Outcome U)) out :
  emit evs o = Some out →
  ∃ out0, o = Some out0 ∧ slot out = slot out0 ∧ world out = world out0
          ∧ ret out = ret out0 ∧ trace out = evs ++ trace out0.
Proof. destruct o as [out0|]; simpl; [|done]. intros [= <-]. by exists out0. Qed.

(** A dynamic controller keeps the connection's heap in shape. *)
Lemma handle_connection_heap objs createResponse this h0 (c : Call) ptr qret w :
  is_Some (objs !! this) →
  connection_heap objs h0 ptr w →
  ∃ out,
    DynamicController_handleRequest Controller_create_state createResponse
      this c ptr qret w = Some out
    ∧ connection_heap objs h0 (slot out) (world out)
    ∧ ∀ l', count_events (is_EvDelete l') (trace out) = 0%nat.
Proof.
  intros Hthis Hinv.
  destruct (attach this ptr w) as [[l w0] tr0] eqn:Hat.
  assert (h0 !! l = None
          ∧ ∃ st, states w0 = <[l := st]> h0 ∧ is_Some (objs !! conroller st))
    as (Hfresh & st & Hw0 & Hown).
  { destruct ptr as [l0|]; simpl in Hat, Hinv.
    - by injection Hat as <- <- <-.
    - injection Hat as <- <- <-. simpl. rewrite Hinv. split.
      + apply not_elem_of_dom, is_fresh.
      + by eexists. }
  assert (states w0 !! l = Some st) as Hst.
  { rewrite Hw0. apply lookup_insert_eq. }
  destruct (handle_total createResponse this c ptr qret w l w0 tr0 st Hat Hst)
    as (out & st' & Hout & Hslot & Hstates & Hctl & Hdel).
  exists out. split; [done|]. split; [|done].
  rewrite Hslot. simpl. split; [done|]. exists st'.
  split; [|by rewrite Hctl]. by rewrite Hstates, Hw0, insert_insert_eq.
Qed.

Lemma request_handler_scan_connection_heap objs h0 (c : Call) qret
    (cs : list (option cref)) : ∀ ptr w,
  all_dynamic objs →
  (∀ r, Some r ∈ cs → is_Some (objs !! r)) →
  connection_heap objs h0 ptr w →
  ∃ out,
    request_handler_scan objs cs c ptr qret w = Some out
    ∧ connection_heap objs h0 (slot out) (world out)
    ∧ ∀ l', count_events (is_EvDelete l') (trace out) = 0%nat.
Proof.
  intros ptr w Hdyn. induction cs as [|[r|] cs IH]; intros Hreg Hinv; simpl.
  - eexists. split; [reflexivity|]. by split.
  - destruct (Hreg r) as [ctl Hr]; [left|]. rewrite Hr. simpl.
    destruct (validPath ctl (url c) (method c)).
    + destruct (Hdyn r ctl Hr) as (_ & createResponse & ->).
      destruct (handle_connection_heap objs createResponse r h0 c ptr qret w)
        as (out & -> & Hheap & Hdel); [by eexists|done|].
      destruct out as [r0 s0 w0 t0]. rewrite emit_Some.
      eexists. split; [reflexivity|]. split; [done|].
      intros l'. simpl. apply Hdel.
    + destruct IH as (out & -> & Hheap & Hdel).
      { intros r' Hin. apply Hreg. by right. }
      { done. }
      destruct out as [r0 s0 w0 t0]. rewrite emit_Some.
      eexists. split; [reflexivity|]. split; [done|].
      intros l'. simpl. apply Hdel.
  - apply IH; [|done]. intros r' Hin. apply Hreg. by right.
Qed.

Lemma request_handler_connection_heap objs server h0 (c : Call) ptr qret w :
  all_dynamic objs →
  registered objs server →
  connection_heap objs h0 ptr w →
  ∃ out,
    request_handler inet_ntop objs server c ptr qret w = Some out
    ∧ connection_heap objs h0 (slot out) (world out)
    ∧ ∀ l', count_events (is_EvDelete l') (trace out) = 0%nat.
Proof.
  intros Hdyn Hreg Hinv. unfold request_handler.
  destruct (negb _).
  - eexists. split; [reflexivity|]. by split.
  - by apply request_handler_scan_connection_heap.
Qed.

Lemma run_connection_heap objs server h0 (acts : list Activation) : ∀ ptr w,
  all_dynamic objs →
  registered objs server →
  connection_heap objs h0 ptr w →
  ∃ rs ptr' w',
    run_connection (request_handler inet_ntop objs server) acts ptr w
      = Some (rs, ptr', w')
    ∧ connection_heap objs h0 ptr' w'
    ∧ ∀ l', count_events (is_EvDelete l') (all_events rs) = 0%nat.
Proof.
  induction acts as [|a acts IH]; intros ptr w Hdyn Hreg Hinv.
  { exists [], ptr, w. by repeat split. }
  destruct (request_handler_connection_heap objs server h0 (act_call a) ptr
              (act_qret a) w Hdyn Hreg Hinv) as (out & Hout & Hheap & Hdel).
  destruct (IH (slot out) (world out) Hdyn Hreg Hheap)
    as (rs & ptr' & w' & Hrun & Hheap' & Hdel').
  exists ((ret out, trace out) :: rs), ptr', w'. split.
  - simpl. rewrite Hout. simpl. by rewrite Hrun.
  - split; [done|]. intros l'. unfold all_events. simpl.
    fold (all_events rs). by rewrite count_events_app, Hdel, Hdel'.
Qed.

(** The default [handleComplete], reached through
    [request_complete_handler], deletes a live state and only that. *)
Lemma request_complete_handler_default objs (l : loc) toe w st ctl :
  states w !! l = Some st →
  objs !! conroller st = Some ctl →
  handleComplete ctl = Controller_handleComplete →
  request_complete_handler objs (Some l) toe w =
    Some (set_states (delete l (states w)) w,
          [EvHandleComplete (conroller st) toe; EvDelete l]).
Proof.
  intros Hst Hctl Hdefault. unfold request_complete_handler.
  rewrite Hst. simpl. rewrite Hctl. simpl. rewrite Hdefault.
  unfold Controller_handleComplete. by rewrite Hst.
Qed.

(** The effects of [handleRequest] begin with those of attaching the
    state. *)
Lemma handle_trace_prefix createResponse this (c : Call) ptr qret w l w0 tr0 st out :
  attach this ptr w = (l, w0, tr0) →
  states w0 !! l = Some st →
  DynamicController_handleRequest Controller_create_state createResponse
    this c ptr qret w = Some out →
  ∃ tr1, trace out = tr0 ++ tr1.
Proof.
  intros Hat Hst.
  destruct (response_sent st) eqn:Hsent.
  { rewrite (handle_sent createResponse this c ptr qret w l w0 tr0 st) by done.
    intros [= <-]. exists []. simpl. by rewrite app_nil_r. }
  destruct (decide (response_data st = ""%string)) as [Hdata|Hdata]; cycle 1.
  { rewrite (handle_cached createResponse this c ptr qret w l w0 tr0 st) by done.
    intros [= <-]. by eexists. }
  destruct (decide (method c = "POST"%string ∧ upload_data c = None))
    as [[Hm Hup]|Hready].
  { rewrite (handle_awaiting createResponse this c ptr qret w l w0 tr0 st) by done.
    destruct (_ <? _); intros [= <-]; simpl; [|by eexists].
    exists []. by rewrite app_nil_r. }
  assert (body_ready c) as Hr.
  { unfold body_ready. destruct (decide (method c = "POST"%string)); [|by left].
    right. intros ?. by apply Hready. }
  destruct (createResponse c st (user w0)) as [cr u] eqn:Hcr.
  destruct (decide (response_code (cr_params cr) = MHD_NO)) as [Hcode|Hcode].
  - rewrite (handle_build_abort createResponse this c ptr qret w l w0 tr0 st cr u)
      by done.
    intros [= <-]. by eexists.
  - rewrite (handle_build createResponse this c ptr qret w l w0 tr0 st cr u)
      by done.
    intros [= <-]. by eexists.
Qed.

Lemma owner_traced_more (ptr : option loc) w (evs evs' : list event) :
  owner_traced ptr w evs → owner_traced ptr w (evs ++ evs').
Proof.
  destruct ptr as [l|]; [|done]. intros (st & Hst & Hin).
  exists st. split; [done|]. apply elem_of_app. by left.
Qed.

(** A dynamic controller keeps the owner of the state: the state in the
    slot was created by the controller it refers to. *)
Lemma handle_owner objs createResponse this h0 (c : Call) ptr qret w evs :
  is_Some (objs !! this) →
  connection_heap objs h0 ptr w →
  owner_traced ptr w evs →
  ∃ out,
    DynamicController_handleRequest Controller_create_state createResponse
      this c ptr qret w = Some out
    ∧ connection_heap objs h0 (slot out) (world out)
    ∧ (∀ l', count_events (is_EvDelete l') (trace out) = 0%nat)
    ∧ owner_traced (slot out) (world out) (evs ++ trace out).
Proof.
  intros Hthis Hinv Hown.
  destruct (handle_connection_heap objs createResponse this h0 c ptr qret w
              Hthis Hinv) as (out & Hout & Hheap & Hdel).
  exists out. split; [done|]. split; [done|]. split; [done|].
  destruct (attach this ptr w) as [[l w0] tr0] eqn:Hat.
  assert (∃ st, states w0 !! l = Some st
                ∧ EvNew l (conroller st) ∈ evs ++ tr0) as (st & Hst & Hin).
  { destruct ptr as [l0|]; simpl in Hat.
    - injection Hat as <- <- <-. destruct Hown as (st & Hst & Hin).
      exists st. split; [done|]. apply elem_of_app. by left.
    - injection Hat as <- <- <-. exists (ConnectionState_new this).
      split; [apply lookup_insert_eq|].
      apply elem_of_app. right. by left. }
  destruct (handle_total createResponse this c ptr qret w l w0 tr0 st Hat Hst)
    as (out' & st' & Hout' & Hslot & Hstates & Hctl & _).
  rewrite Hout in Hout'. injection Hout' as <-.
  destruct (handle_trace_prefix createResponse this c ptr qret w l w0 tr0 st out
              Hat Hst Hout) as (tr1 & Htr).
  rewrite Hslot. exists st'. split.
  - rewrite Hstates. apply lookup_insert_eq.
  - rewrite Hctl, Htr, app_assoc. apply elem_of_app. by left.
Qed.

Lemma request_handler_scan_owner objs h0 (c : Call) qret
    (cs : list (option cref)) ptr w evs :
  all_dynamic objs →
  (∀ r, Some r ∈ cs → is_Some (objs !! r)) →
  connection_heap objs h0 ptr w →
  owner_traced ptr w evs →
  ∃ out,
    request_handler_scan objs cs c ptr qret w = Some out
    ∧ connection_heap objs h0 (slot out) (world out)
    ∧ (∀ l', count_events (is_EvDelete l') (trace out) = 0%nat)
    ∧ owner_traced (slot out) (world out) (evs ++ trace out).
Proof.
  intros Hdyn. revert evs.
  induction cs as [|[r|] cs IH]; intros evs Hreg Hinv Hown; simpl.
  - eexists. split; [reflexivity|]. split; [done|]. split; [done|].
    by apply owner_traced_more.
  - destruct (Hreg r) as [ctl Hr]; [left|]. rewrite Hr. simpl.
    destruct (validPath ctl (url c) (method c)).
    + destruct (Hdyn r ctl Hr) as (_ & createResponse & ->).
      destruct (handle_owner objs createResponse r h0 c ptr qret w
                  (evs ++ [EvValidPath r (url c) (method c) true;
                           EvHandleRequest r]))
        as (out & -> & Hheap & Hdel & Hown');
        [by eexists|done|by apply owner_traced_more|].
      destruct out as [r0 s0 w0 t0]. rewrite emit_Some.
      eexists. split; [reflexivity|]. split; [done|]. split; [done|].
      simpl in *. by rewrite <- app_assoc in Hown'.
    + destruct (IH (evs ++ [EvValidPath r (url c) (method c) false]))
        as (out & -> & Hheap & Hdel & Hown');
        [intros r' Hin; apply Hreg; by right|done
        |by apply owner_traced_more|].
      destruct out as [r0 s0 w0 t0]. rewrite emit_Some.
      eexists. split; [reflexivity|]. split; [done|]. split; [done|].
      simpl in *. by rewrite <- app_assoc in Hown'.
  - apply IH; [|done..]. intros r' Hin. apply Hreg. by right.
Qed.

Lemma run_connection_owner objs server h0 (acts : list Activation) :
  ∀ ptr w evs,
  all_dynamic objs →
  registered objs server →
  connection_heap objs h0 ptr w →
  owner_traced ptr w evs →
  ∃ rs ptr' w',
    run_connection (request_handler inet_ntop objs server) acts ptr w
      = Some (rs, ptr', w')
    ∧ connection_heap objs h0 ptr' w'
    ∧ (∀ l', count_events (is_EvDelete l') (all_events rs) = 0%nat)
    ∧ owner_traced ptr' w' (evs ++ all_events rs).
Proof.
  induction acts as [|a acts IH]; intros ptr w evs Hdyn Hreg Hinv Hown.
  { exists [], ptr, w. split; [done|]. split; [done|]. split; [done|].
    by apply owner_traced_more. }
  assert (∃ out,
            request_handler inet_ntop objs server (act_call a) ptr (act_qret a) w
              = Some out
            ∧ connection_heap objs h0 (slot out) (world out)
            ∧ (∀ l', count_events (is_EvDelete l') (trace out) = 0%nat)
            ∧ owner_traced (slot out) (world out) (evs ++ trace out))
    as (out & Hout & Hheap & Hdel & Hown').
  { unfold request_handler. destruct (negb _).
    - eexists. split; [reflexivity|]. split; [done|]. split; [done|].
      by apply owner_traced_more.
    - by apply request_handler_scan_owner. }
  destruct (IH (slot out) (world out) (evs ++ trace out) Hdyn Hreg Hheap Hown')
    as (rs & ptr' & w' & Hrun & Hheap' & Hdel' & Hown'').
  exists ((ret out, trace out) :: rs), ptr', w'. split.
  - simpl. rewrite Hout. simpl. by rewrite Hrun.
  - split; [done|]. unfold all_events. simpl. fold (all_events rs). split.
    + intros l'. by rewrite count_events_app, Hdel, Hdel'.
    + by rewrite app_assoc.
Qed.

(** C8. Take a server whose controllers are dynamic controllers with the
    inherited [handleComplete] and [create_state], and any connection:
    any sequence of activations of [request_handler] from an empty slot
    (they may be refused, find no controller, wait, abort, build or
    resend).  The run is defined and deletes no state.  Whatever the
    termination code, [request_complete_handler] is then defined.  With
    a state in the slot it calls [handleComplete] of the state's owner,
    the controller that the state refers to and that created it during
    the run; that call deletes the state, once, and nothing else, and
    returns [MHD_YES].  With an empty slot it does nothing.  Afterwards
    the heap of connection states is what it was before the connection,
    so the state did not survive. *)
Theorem connection_state_destroyed_exactly_once
    objs server (acts : list Activation) (toe : MHD_RequestTerminationCode) w :
  all_dynamic objs →
  registered objs server →
  ∃ rs ptr' w' w'' tr,
    run_connection (request_handler inet_ntop objs server) acts None w
      = Some (rs, ptr', w')
    ∧ request_complete_handler objs ptr' toe w' = Some (w'', tr)
    ∧ states w'' = states w
    ∧ match ptr' with
      | None => tr = [] ∧ states w' = states w
      | Some l =>
          is_Some (states w' !! l)
          ∧ states w'' !! l = None
          ∧ ∃ st ctl,
              states w' !! l = Some st
              ∧ EvNew l (conroller st) ∈ all_events rs
              ∧ objs !! conroller st = Some ctl
              ∧ handleComplete ctl (conroller st) toe (Some l) w'
                = Some (MHD_YES, w'', [EvDelete l])
              ∧ tr = [EvHandleComplete (conroller st) toe; EvDelete l]
      end
    ∧ ∀ l, count_events (is_EvDelete l) (all_events rs ++ tr)
           = (if decide (ptr' = Some l) then 1 else 0)%nat.
Proof.
  intros Hdyn Hreg.
  destruct (run_connection_owner objs server (states w) acts None w [] Hdyn Hreg)
    as (rs & ptr' & w' & Hrun & Hheap & Hdel & Hown); [done..|].
  destruct ptr' as [l|]; simpl in Hheap, Hown.
  - destruct Hheap as (Hfresh & st0 & Hw' & _).
    destruct Hown as (st & Hst & Hnew).
    assert (st0 = st) as ->.
    { rewrite Hw', lookup_insert_eq in Hst. by injection Hst. }
    assert (is_Some (objs !! conroller st)) as [ctl Hctl].
    { clear -Hrun Hdyn Hreg Hst.
      destruct (run_connection_heap objs server (states w) acts None w Hdyn Hreg)
        as (rs0 & ptr0 & w0 & Hrun0 & Hheap0 & _); [done|].
      rewrite Hrun in Hrun0. injection Hrun0 as <- <- <-.
      destruct Hheap0 as (_ & st1 & Hw1 & Hsome).
      rewrite Hw1, lookup_insert_eq in Hst. by injection Hst as <-. }
    destruct (Hdyn _ _ Hctl) as (Hdefault & _).
    eexists rs, (Some l), w', _, _. split; [done|]. split.
    { by apply (request_complete_handler_default objs l toe w' st ctl). }
    simpl. rewrite Hw', delete_insert_id by done.
    split; [done|]. split.
    { split; [by rewrite lookup_insert_eq|]. split; [done|].
      exists st, ctl. split; [by rewrite lookup_insert_eq|].
      split; [done|]. split; [done|]. split; [|done].
      rewrite Hdefault. unfold Controller_handleComplete. rewrite Hst.
      by rewrite Hw', delete_insert_id. }
    intros l'. rewrite count_events_app, Hdel. simpl.
    destruct (decide (l = l')) as [->|Hne].
    + by rewrite bool_decide_eq_true_2, decide_True.
    + rewrite bool_decide_eq_false_2 by done.
      rewrite decide_False; [done|]. by intros [= ->].
  - exists rs, None, w', w', []. split; [done|]. split; [done|].
    split; [done|]. split; [done|].
    intros l'. by rewrite count_events_app, Hdel.
Qed.

End Properties.

(** ** The daemon start loop *)

Section DaemonProperties.

Context {U : Type}.

(** A pass that ends in one of the four [continue] statements leaves
    [attempts] as it was. *)
Lemma start_daemon_body_continue (port : Z) (o : @options_t U) (a : Answers)
    (attempts : Z) :
  socket_ret a = -1 ∨ bind_ret a = -1 ∨ listen_ret a = -1 →
  (start_daemon_body port o a attempts).1 = (None, attempts).
Proof.
  intros H. unfold start_daemon_body.
  destruct (Z.eqb_spec (socket_ret a) (-1)); [done|].
  destruct (_ && _); [done|].
  destruct (Z.eqb_spec (bind_ret a) (-1)); [done|].
  destruct (Z.eqb_spec (listen_ret a) (-1)); [done|].
  by destruct H as [?|[?|?]].
Qed.

(** While every pass ends in a [continue], the loop does not end. *)
Lemma start_daemon_loop_continue_forever (port : Z) (o : @options_t U)
    (os : nat → Answers) (attempts : Z) :
  0 ≤ attempts →
  (∀ i, socket_ret (os i) = -1 ∨ bind_ret (os i) = -1 ∨ listen_ret (os i) = -1) →
  ∀ fuel i, start_daemon_loop fuel port o os i None attempts = None.
Proof.
  intros Hpos Hos. induction fuel as [|fuel IH]; intros i; simpl.
  - apply Z.leb_le in Hpos. by rewrite Hpos.
  - pose proof (start_daemon_body_continue port o (os i) attempts (Hos i)) as Hb.
    destruct (start_daemon_body port o (os i) attempts) as [[d n] tr].
    simpl in Hb. injection Hb as -> ->.
    rewrite IH. apply Z.leb_le in Hpos. by rewrite Hpos.
Qed.

End DaemonProperties.

(** C7 (what the code does at the failing input).  On a host where the
    port is taken, so that every [bind] fails, [start_daemon] is still
    in its loop whatever number of passes it is given: the [continue]
    after the failed [bind] skips [--attempts], the counter stays at 12
    and the loop condition stays true. *)
Theorem start_daemon_port_taken_never_returns (fuel : nat) :
  start_daemon fuel Sample.open_server None Sample.port_taken = None.
Proof.
  unfold start_daemon.
  rewrite start_daemon_loop_continue_forever; [done|lia|].
  intros i. right. by left.
Qed.

(** When only the transport engine fails, the loop does end: after
    thirteen passes ([attempts] runs from 12 down to 0), not twelve, each
    with a socket of its own, none of them closed. *)
Lemma start_daemon_engine_broken_thirteen_passes :
  start_daemon 12 Sample.open_server None Sample.engine_broken = None
  ∧ ∃ tr,
      start_daemon 13 Sample.open_server None Sample.engine_broken
        = Some (None, tr)
      ∧ count_daemon_events is_DStartDaemon tr = 13%nat
      ∧ count_daemon_events is_DSocket tr = 13%nat
      ∧ count_daemon_events is_DSleep tr = 13%nat
      ∧ count_daemon_events (λ e, if e is DClose _ then true else false) tr
        = 0%nat.
Proof. split; [by vm_compute|]. eexists. by vm_compute. Qed.

(** Three failed binds and then success: three waits, three closed
    sockets, and the daemon listens on the fourth socket. *)
Lemma start_daemon_three_bind_failures :
  ∃ tr,
    start_daemon 4 Sample.open_server None Sample.three_bind_failures
      = Some (Some 7%nat, tr)
    ∧ count_daemon_events is_DSleep tr = 3%nat
    ∧ count_daemon_events is_DSocket tr = 4%nat
    ∧ last tr = Some (DStartDaemon false 6 (Some 7%nat)).
Proof. eexists. by vm_compute. Qed.

(** With a daemon already in the member, [start_daemon] stops it and
    does not enter the loop: [stop_daemon] leaves [daemon_] set. *)
Lemma start_daemon_with_daemon (os : nat → Answers) :
  start_daemon 0 Sample.open_server (Some 7%nat) os
    = Some (Some 7%nat, [DStop 7%nat]).
Proof. done. Qed.

(** * The statements at concrete inputs *)

Section Instances.

Import Sample.

Abbreviation serve controller_createResponse this :=
  (DynamicController_handleRequest Controller_create_state
     controller_createResponse this).

(** With a ceiling of 1 the first empty activation waits and the second
    aborts. *)
Lemma handleRequest_waits_for_body_ceiling_one :
  Forall awaiting_body two_empty_posts
  ∧ ∃ rs ptr' w',
      run_connection (serve Upload_createResponse 1%nat) two_empty_posts None
        ceiling_one = Some (rs, ptr', w')
      ∧ rs = [(MHD_YES, [EvNew 0%nat 1%nat; EvNanosleep 0 10000000]);
              (MHD_NO, [])].
Proof.
  assert (Forall awaiting_body two_empty_posts) as Hall.
  { repeat constructor. }
  split; [exact Hall|].
  destruct (handleRequest_waits_for_body Upload_createResponse 1%nat
              ceiling_one two_empty_posts Hall)
    as (rs & ptr' & w' & Hrun & Hlen & Hrs & _); [simpl; lia|].
  exists rs, ptr', w'. split; [exact Hrun|].
  destruct rs as [|[r0 t0] [|[r1 t1] [|]]]; try discriminate.
  destruct (Hrs 0%nat r0 t0 eq_refl) as [-> ->].
  destruct (Hrs 1%nat r1 t1 eq_refl) as [-> ->].
  reflexivity.
Defined.

(** The page of [MyController] is built at clock 5 and cached; the two
    activations that follow a failed queueing queue the same page and
    the clock is read once. *)
Lemma createResponse_cached_and_reused_MyController :
  body_ready (get localhost "/")
  ∧ ∃ rs w' st',
      run_connection (serve MyController_createResponse 0%nat)
        [mkActivation (get localhost "/") MHD_NO;
         mkActivation (get localhost "/") MHD_YES;
         mkActivation (get localhost "/") MHD_YES] None at_five
        = Some (rs, Some 0%nat, w')
      ∧ rs = [(MHD_YES, [EvNew 0%nat 0%nat; EvCreateResponse 0%nat;
                         EvQueueResponse MHD_HTTP_OK "Hello World at 5" []]);
              (MHD_YES, [EvQueueResponse MHD_HTTP_OK "Hello World at 5" []]);
              (MHD_YES, [])]
      ∧ count_events is_EvCreateResponse (all_events rs) = 1%nat
      ∧ states w' !! 0%nat = Some st'
      ∧ response_data st' = "Hello World at 5"%string
      ∧ response_headers st' = []
      ∧ user w' = 6%nat.
Proof.
  assert (body_ready (get localhost "/")) as Hready by (by left).
  split; [exact Hready|].
  exact (createResponse_cached_and_reused MyController_createResponse 0%nat
           (mkActivation (get localhost "/") MHD_NO)
           [mkActivation (get localhost "/") MHD_YES;
            mkActivation (get localhost "/") MHD_YES]
           None at_five _ _ _ (ConnectionState_new 0%nat) _ _
           eq_refl eq_refl eq_refl eq_refl Hready eq_refl
           ltac:(done) ltac:(done)).
Defined.

(** C2, the claim as stated fails.  First run: the page is built and
    its queueing succeeds; the next activation queues nothing, so the
    cached page is not emitted again.  Second run: the page of [Blank]
    is empty and its queueing fails; the next activation calls
    [createResponse] a second time. *)
Lemma sent_response_is_not_queued_again :
  (∃ w',
     run_connection (serve MyController_createResponse 0%nat)
       [mkActivation (get localhost "/") MHD_YES;
        mkActivation (get localhost "/") MHD_YES] None at_five
       = Some ([(MHD_YES, [EvNew 0%nat 0%nat; EvCreateResponse 0%nat;
                           EvQueueResponse MHD_HTTP_OK "Hello World at 5" []]);
                (MHD_YES, [])], Some 0%nat, w'))
  ∧ (∃ rs w',
       run_connection (serve Blank_createResponse 3%nat)
         [mkActivation (get localhost "/") MHD_NO;
          mkActivation (get localhost "/") MHD_YES] None at_five
         = Some (rs, Some 0%nat, w')
       ∧ count_events is_EvCreateResponse (all_events rs) = 2%nat).
Proof. split; [eexists|eexists _, _]; by vm_compute. Qed.

(** An upload is dispatched to the second controller although the last
    one would take it too. *)
Lemma request_handler_first_match_upload :
  is_ip_allowed inet_ntop open_server localhost = true
  ∧ Forall (passed_over objects (post localhost "/upload" (Some "abc"%string)))
      [Some 0%nat; None]
  ∧ validPath Blank "/upload" "POST" = true
  ∧ request_handler inet_ntop objects open_server
      (post localhost "/upload" (Some "abc"%string)) None MHD_YES at_five
    = emit [EvValidPath 0%nat "/upload" "POST" false;
            EvValidPath 1%nat "/upload" "POST" true; EvHandleRequest 1%nat]
        (handleRequest Upload 1%nat
           (post localhost "/upload" (Some "abc"%string)) None MHD_YES at_five).
Proof.
  assert (Forall (passed_over objects
                    (post localhost "/upload" (Some "abc"%string)))
            [Some 0%nat; None]) as Hpre.
  { constructor; [by exists MyController|]. by constructor. }
  split; [done|]. split; [exact Hpre|]. split; [done|].
  exact (proj1 (request_handler_first_match inet_ntop objects open_server
                  (post localhost "/upload" (Some "abc"%string)) None MHD_YES
                  at_five eq_refl)
           [Some 0%nat; None] 1%nat Upload [Some 3%nat]
           eq_refl Hpre eq_refl eq_refl).
Defined.

(** A client that is not on the allow-list gets the 403. *)
Lemma request_handler_denied_10_0_0_2 :
  is_ip_allowed inet_ntop closed_server (peer_v4 10 0 0 2) = false
  ∧ ∃ out,
      request_handler inet_ntop objects closed_server
        (get (peer_v4 10 0 0 2) "/") None MHD_YES at_five = Some out
      ∧ out = forbidden (get (peer_v4 10 0 0 2) "/") None MHD_YES at_five
      ∧ trace out = [EvQueueResponse MHD_HTTP_FORBIDDEN "" []]
      ∧ count_events is_dispatch_event (trace out) = 0%nat.
Proof.
  split; [done|].
  exact (request_handler_denied_before_dispatch inet_ntop objects closed_server
           (get (peer_v4 10 0 0 2) "/") None MHD_YES at_five eq_refl).
Defined.

(** [Refuse] answers with the abort code: nothing is cached or queued. *)
Lemma createResponse_abort_caches_nothing_Refuse :
  body_ready (get localhost "/")
  ∧ ∃ out st',
      serve Refuse_createResponse 2%nat (get localhost "/") None MHD_YES at_five
        = Some out
      ∧ ret out = MHD_NO
      ∧ trace out = [EvNew 0%nat 2%nat] ++ [EvCreateResponse 2%nat]
      ∧ count_events is_EvQueueResponse (trace out) = 0%nat
      ∧ slot out = Some 0%nat
      ∧ states (world out) !! 0%nat = Some st'
      ∧ response_data st' = ""%string
      ∧ response_headers st' = []
      ∧ response_sent st' = false
      ∧ request_waiting_loop_counter st' = 0.
Proof.
  assert (body_ready (get localhost "/")) as Hready by (by left).
  split; [exact Hready|].
  exact (createResponse_abort_caches_nothing Refuse_createResponse 2%nat
           (get localhost "/") None MHD_YES at_five _ _ _
           (ConnectionState_new 2%nat) _ _
           eq_refl eq_refl eq_refl eq_refl Hready eq_refl eq_refl).
Defined.

(** [Upload] answers with code 418; the response goes out with 200. *)
Lemma queued_status_is_always_200_Upload :
  body_ready (post localhost "/upload" (Some "abc"%string))
  ∧ ∃ out,
      serve Upload_createResponse 1%nat
        (post localhost "/upload" (Some "abc"%string)) None MHD_YES at_five
        = Some out
      ∧ trace out = [EvNew 0%nat 1%nat]
                    ++ [EvCreateResponse 1%nat;
                        EvQueueResponse MHD_HTTP_OK "abc"
                          [("Content-Type"%string, "text/plain"%string)]]
      ∧ (∀ status body hdrs,
           EvQueueResponse status body hdrs ∈ trace out → status = MHD_HTTP_OK)
      ∧ response_code ResponseParams_default = MHD_YES
      ∧ MHD_YES ≠ MHD_HTTP_OK.
Proof.
  assert (body_ready (post localhost "/upload" (Some "abc"%string))) as Hready.
  { by right. }
  split; [exact Hready|].
  exact (queued_status_is_always_200 Upload_createResponse 1%nat
           (post localhost "/upload" (Some "abc"%string)) None MHD_YES at_five
           _ _ _ (ConnectionState_new 1%nat) _ _
           eq_refl eq_refl eq_refl eq_refl Hready eq_refl ltac:(done)).
Defined.

Lemma all_dynamic_empty : all_dynamic (∅ : gmap cref (@Controller clock)).
Proof. intros r ctl H. by rewrite lookup_empty in H. Qed.

Lemma all_dynamic_insert (objs : gmap cref (@Controller clock)) r vp cr :
  all_dynamic objs → all_dynamic (<[r := DynamicController vp cr]> objs).
Proof.
  intros Hobjs r' ctl. rewrite lookup_insert. case_decide.
  - intros [= <-]. split; [done|]. by eexists.
  - apply Hobjs.
Qed.

Lemma all_dynamic_objects : all_dynamic objects.
Proof. repeat apply all_dynamic_insert. apply all_dynamic_empty. Qed.

Lemma registered_open_server : registered objects open_server.
Proof.
  intros r Hin. simpl in Hin.
  apply elem_of_cons in Hin as [[= ->]|Hin]; [by eexists|].
  apply elem_of_cons in Hin as [[=]|Hin].
  apply elem_of_cons in Hin as [[= ->]|Hin]; [by eexists|].
  apply elem_of_cons in Hin as [[= ->]|Hin]; [by eexists|].
  by apply elem_of_nil in Hin.
Qed.

(** An upload that waits twice, is answered, and ends with the client
    going away: its state is deleted once, by the completion callback,
    and the heap is empty again. *)
Lemma connection_state_destroyed_exactly_once_upload :
  all_dynamic objects
  ∧ registered objects open_server
  ∧ ∃ rs ptr' w' w'' tr,
      run_connection (request_handler inet_ntop objects open_server)
        (two_empty_posts
         ++ [mkActivation (post localhost "/upload" (Some "abc"%string)) MHD_YES])
        None at_five = Some (rs, ptr', w')
      ∧ request_complete_handler objects ptr'
          MHD_REQUEST_TERMINATED_CLIENT_ABORT w' = Some (w'', tr)
      ∧ states w'' = states at_five
      ∧ match ptr' with
        | None => tr = [] ∧ states w' = states at_five
        | Some l =>
            is_Some (states w' !! l)
            ∧ states w'' !! l = None
            ∧ ∃ st ctl,
                states w' !! l = Some st
                ∧ EvNew l (conroller st) ∈ all_events rs
                ∧ objects !! conroller st = Some ctl
                ∧ handleComplete ctl (conroller st)
                    MHD_REQUEST_TERMINATED_CLIENT_ABORT (Some l) w'
                  = Some (MHD_YES, w'', [EvDelete l])
                ∧ tr = [EvHandleComplete (conroller st)
                          MHD_REQUEST_TERMINATED_CLIENT_ABORT;
                        EvDelete l]
        end
      ∧ ∀ l, count_events (is_EvDelete l) (all_events rs ++ tr)
             = (if decide (ptr' = Some l) then 1 else 0)%nat.
Proof.
  split; [exact all_dynamic_objects|]. split; [exact registered_open_server|].
  exact (connection_state_destroyed_exactly_once inet_ntop objects open_server
           _ MHD_REQUEST_TERMINATED_CLIENT_ABORT at_five
           all_dynamic_objects registered_open_server).
Defined.

(** C9, the claim as stated fails.  A peer on a UNIX-domain socket, and
    a connection without peer descriptor, have the empty address; the
    default allow-list holds "*", which admits every address, the empty
    one too, and the request is dispatched. *)
Lemma unknown_family_is_admitted_by_default :
  no_inet_peer peer_unix
  ∧ connection_ip inet_ntop peer_unix = ""%string
  ∧ is_ip_allowed inet_ntop open_server peer_unix = true
  ∧ is_ip_allowed inet_ntop open_server (mkConnection None) = true
  ∧ ∃ w',
      request_handler inet_ntop objects open_server (get peer_unix "/") None
        MHD_YES at_five
      = Some (mkOutcome MHD_YES (Some 0%nat) w'
                [EvValidPath 0%nat "/" "GET" true; EvHandleRequest 0%nat;
                 EvNew 0%nat 0%nat; EvCreateResponse 0%nat;
                 EvQueueResponse MHD_HTTP_OK "Hello World at 5" []]).
Proof.
  split; [by split|]. split; [done|]. split; [done|]. split; [done|].
  eexists. by vm_compute.
Qed.

(** A peer on a UNIX-domain socket is refused by a server whose
    allow-list names one address. *)
Lemma connection_ip_no_inet_peer_admission_unix :
  no_inet_peer (connection (get peer_unix "/"))
  ∧ connection_ip inet_ntop (connection (get peer_unix "/")) = ""%string
  ∧ (is_ip_allowed inet_ntop closed_server (connection (get peer_unix "/"))
       = false ↔
       ("*"%string ∉ allowed_ips (options_ closed_server))
       ∧ ("all"%string ∉ allowed_ips (options_ closed_server))
       ∧ (""%string ∉ allowed_ips (options_ closed_server)))
  ∧ (is_ip_allowed inet_ntop closed_server (connection (get peer_unix "/"))
       = false →
       request_handler inet_ntop objects closed_server (get peer_unix "/")
         None MHD_YES at_five
         = Some (forbidden (get peer_unix "/") None MHD_YES at_five)).
Proof.
  assert (no_inet_peer (connection (get peer_unix "/"))) as Hpeer by (by split).
  split; [exact Hpeer|].
  exact (connection_ip_no_inet_peer_admission inet_ntop objects closed_server
           (get peer_unix "/") None MHD_YES at_five Hpeer).
Defined.

(** ** The end-to-end scenarios *)

(** One controller on GET "/": the page with status 200; 404 with an
    empty body for another path; 403 for a client off the allow-list. *)
Lemma scenario_get_ok_missing_forbidden :
  let server := mkWebServer 8080 (mkOptions false "" "" None None
                                    ["10.0.0.1"%string]) [Some 0%nat] in
  (trace <$> request_handler inet_ntop objects server
               (get (peer_v4 10 0 0 1) "/") None MHD_YES at_five)
    = Some [EvValidPath 0%nat "/" "GET" true; EvHandleRequest 0%nat;
            EvNew 0%nat 0%nat; EvCreateResponse 0%nat;
            EvQueueResponse 200 "Hello World at 5" []]
  ∧ (trace <$> request_handler inet_ntop objects server
                 (get (peer_v4 10 0 0 1) "/missing") None MHD_YES at_five)
    = Some [EvValidPath 0%nat "/missing" "GET" false;
            EvQueueResponse 404 "" []]
  ∧ (trace <$> request_handler inet_ntop objects server
                 (get (peer_v4 10 0 0 2) "/") None MHD_YES at_five)
    = Some [EvQueueResponse 403 "" []].
Proof. by vm_compute. Qed.

(** An upload: the first activation, without data, waits and queues
    nothing; the second, with data, builds the response once and queues
    it. *)
Lemma scenario_post_waits_then_builds :
  ∃ w',
    run_connection (request_handler inet_ntop objects open_server)
      [mkActivation (post localhost "/upload" None) MHD_YES;
       mkActivation (post localhost "/upload" (Some "abc"%string)) MHD_YES]
      None at_five
    = Some ([(MHD_YES,
              [EvValidPath 0%nat "/upload" "POST" false;
               EvValidPath 1%nat "/upload" "POST" true; EvHandleRequest 1%nat;
               EvNew 0%nat 1%nat; EvNanosleep 0 10000000]);
             (MHD_YES,
              [EvValidPath 0%nat "/upload" "POST" false;
               EvValidPath 1%nat "/upload" "POST" true; EvHandleRequest 1%nat;
               EvCreateResponse 1%nat;
               EvQueueResponse 200 "abc"
                 [("Content-Type"%string, "text/plain"%string)]])],
            Some 0%nat, w').
Proof. eexists. by vm_compute. Qed.

(** The wildcard tokens are matched exactly: "ALL" is an ordinary entry. *)
Lemma is_allowed_ip_case_sensitive :
  is_allowed_ip (mkOptions (U := clock) false "" "" None None ["ALL"%string])
    "10.0.0.2" = false
  ∧ is_allowed_ip (mkOptions (U := clock) false "" "" None None ["all"%string])
      "10.0.0.2" = true.
Proof. done. Qed.

End Instances.

(** * Further properties of the dynamic controller *)

Section MoreDynamic.

Context {U : Type}.
Variable createResponse : @createResponse_t U.
Variable this : cref.

Implicit Types (w : @World U).

Abbreviation handle :=
  (DynamicController_handleRequest Controller_create_state createResponse this).

Lemma same_but_sent_refl (st : ConnectionState) : same_but_sent st st.
Proof. done. Qed.

Lemma same_but_sent_mark (q1 q2 : Z) (st : ConnectionState) :
  same_but_sent (mark_sent q1 st) (mark_sent q2 st).
Proof.
  unfold same_but_sent, mark_sent.
  by destruct (q1 =? MHD_YES), (q2 =? MHD_YES).
Qed.

Lemma mark_sent_failed (q : Z) (st : ConnectionState) :
  q ≠ MHD_YES → mark_sent q st = st.
Proof. intros H. unfold mark_sent. apply Z.eqb_neq in H. by rewrite H. Qed.

(** X1. What [MHD_queue_response] answers is not reported and decides
    nothing but the sent flag: for two answers [q1] and [q2] the
    activation returns the same value with the same effects and the same
    user state, and the connection states afterwards differ at most in
    [response_sent]; an answer other than [MHD_YES] leaves
    [response_sent] as it was. *)
Theorem queue_answer_only_sets_sent
    (c : Call) ptr (q1 q2 : Z) w l w0 tr0 st :
  attach this ptr w = (l, w0, tr0) →
  states w0 !! l = Some st →
  ∃ o1 o2 st1 st2,
    handle c ptr q1 w = Some o1
    ∧ handle c ptr q2 w = Some o2
    ∧ ret o2 = ret o1
    ∧ trace o2 = trace o1
    ∧ slot o2 = slot o1
    ∧ user (world o2) = user (world o1)
    ∧ states (world o1) = <[l := st1]> (states w0)
    ∧ states (world o2) = <[l := st2]> (states w0)
    ∧ same_but_sent st1 st2
    ∧ (q1 ≠ MHD_YES → response_sent st1 = response_sent st).
Proof.
  intros Hat Hst.
  destruct (response_sent st) eqn:Hsent.
  { rewrite !(handle_sent createResponse this c ptr _ w l w0 tr0 st) by done.
    eexists _, _, st, st. do 6 (split; [reflexivity|]). simpl.
    rewrite insert_id by done. by repeat split. }
  destruct (decide (response_data st = ""%string)) as [Hdata|Hdata]; cycle 1.
  { rewrite !(handle_cached createResponse this c ptr _ w l w0 tr0 st) by done.
    eexists _, _, _, _. do 8 (split; [reflexivity|]).
    split; [apply same_but_sent_mark|].
    intros Hq. by rewrite mark_sent_failed. }
  destruct (decide (method c = "POST"%string ∧ upload_data c = None))
    as [[Hm Hup]|Hready].
  { rewrite !(handle_awaiting createResponse this c ptr _ w l w0 tr0 st) by done.
    destruct (_ <? _); eexists _, _, _, _; do 8 (split; [reflexivity|]);
      by split. }
  assert (body_ready c) as Hr.
  { unfold body_ready. destruct (decide (method c = "POST"%string)); [|by left].
    right. intros ?. by apply Hready. }
  destruct (createResponse c st (user w0)) as [cr u] eqn:Hcr.
  destruct (decide (response_code (cr_params cr) = MHD_NO)) as [Hcode|Hcode].
  - rewrite !(handle_build_abort createResponse this c ptr _ w l w0 tr0 st cr u)
      by done.
    eexists _, _, _, _. do 8 (split; [reflexivity|]). by split.
  - rewrite !(handle_build createResponse this c ptr _ w l w0 tr0 st cr u)
      by done.
    eexists _, _, _, _. do 8 (split; [reflexivity|]).
    split; [apply same_but_sent_mark|].
    intros Hq. by rewrite mark_sent_failed.
Qed.

(** X2. Once [response_sent] is set the state is final: every further
    activation, whatever its arguments, returns [MHD_YES], has no effect
    and leaves the whole program state as it is. *)
Theorem sent_is_final (acts : list Activation) w l st :
  states w !! l = Some st →
  response_sent st = true →
  run_connection handle acts (Some l) w
    = Some (map (λ _, (MHD_YES, [])) acts, Some l, w).
Proof.
  intros Hst Hsent. induction acts as [|a acts IH]; [done|].
  simpl.
  rewrite (handle_sent createResponse this (act_call a) (Some l) (act_qret a)
             w l w [] st) by done.
  simpl. by rewrite IH.
Qed.

Lemma wrap32_bound (z : Z) : 0 ≤ wrap32 z < 2 ^ 32.
Proof. unfold wrap32. apply Z.mod_pos_bound. lia. Qed.

(** X3. With the ceiling at the largest [uint32_t] value the wait never
    times out: the counter wraps around instead of exceeding it, so a run
    of activations without body, of any length and from any counter
    value, returns [MHD_YES] every time. *)
Theorem max_ceiling_never_times_out (acts : list Activation) : ∀ w l st,
  waiting_loops w = 2 ^ 32 - 1 →
  states w !! l = Some st →
  response_sent st = false →
  response_data st = ""%string →
  Forall awaiting_body acts →
  ∃ rs w',
    run_connection handle acts (Some l) w = Some (rs, Some l, w')
    ∧ length rs = length acts
    ∧ Forall (λ r, r.1 = MHD_YES) rs.
Proof.
  induction acts as [|a acts IH]; intros w l st Hmax Hst Hsent Hdata Hall.
  { exists [], w. by repeat split. }
  apply Forall_cons in Hall as [[Hm Hup] Hall].
  pose proof (handle_awaiting createResponse this (act_call a) (Some l)
                (act_qret a) w l w [] st eq_refl Hst Hsent Hdata Hm Hup) as Hstep.
  simpl in Hstep.
  set (n := wrap32 (request_waiting_loop_counter st + 1)) in *.
  pose proof (wrap32_bound (request_waiting_loop_counter st + 1)) as Hn.
  fold n in Hn.
  destruct (Z.ltb_spec (waiting_loops w) n) as [Hlt|_]; [lia|].
  set (st1 := set_request_waiting_loop_counter n st) in *.
  destruct (IH (update_state l st1 w) l st1)
    as (rs & w' & Hrun & Hlen & Hrs); [done|apply lookup_insert_eq|done..|].
  eexists _, w'. simpl. rewrite Hstep. simpl. rewrite Hrun. simpl.
  split; [reflexivity|]. split; [simpl; by rewrite Hlen|].
  by constructor.
Qed.

(** X21. An activation never both answers and aborts.  When
    [handleRequest] returns [MHD_NO], nothing had been sent or cached
    before, the activation has queued no response, and the state still
    has nothing cached and nothing sent; in every other case the return
    value is [MHD_YES]. *)
Theorem abort_queues_nothing (c : Call) ptr (qret : Z) w l w0 tr0 st out :
  attach this ptr w = (l, w0, tr0) →
  states w0 !! l = Some st →
  handle c ptr qret w = Some out →
  (ret out = MHD_YES ∨ ret out = MHD_NO)
  ∧ (ret out = MHD_NO →
       response_sent st = false
       ∧ response_data st = ""%string
       ∧ count_events is_EvQueueResponse (trace out) = 0%nat
       ∧ ∃ st', states (world out) !! l = Some st'
                ∧ response_sent st' = false
                ∧ response_data st' = ""%string
                ∧ response_headers st' = response_headers st).
Proof.
  intros Hat Hst.
  assert (count_events is_EvQueueResponse tr0 = 0%nat) as Htr0.
  { rewrite (attach_trace this _ _ _ _ _ Hat). by destruct ptr. }
  destruct (response_sent st) eqn:Hsent.
  { rewrite (handle_sent createResponse this c ptr qret w l w0 tr0 st) by done.
    intros [= <-]. simpl. split; [by left|]. done. }
  destruct (decide (response_data st = ""%string)) as [Hdata|Hdata]; cycle 1.
  { rewrite (handle_cached createResponse this c ptr qret w l w0 tr0 st) by done.
    intros [= <-]. simpl. split; [by left|]. done. }
  destruct (decide (method c = "POST"%string ∧ upload_data c = None))
    as [[Hm Hup]|Hready].
  { rewrite (handle_awaiting createResponse this c ptr qret w l w0 tr0 st) by done.
    destruct (_ <? _); intros [= <-]; simpl; (split; [auto|]); [|done].
    intros _. do 3 (split; [done|]). eexists.
    split; [apply lookup_insert_eq|done]. }
  assert (body_ready c) as Hr.
  { unfold body_ready. destruct (decide (method c = "POST"%string)); [|by left].
    right. intros ?. by apply Hready. }
  destruct (createResponse c st (user w0)) as [cr u] eqn:Hcr.
  destruct (decide (response_code (cr_params cr) = MHD_NO)) as [Hcode|Hcode].
  - rewrite (handle_build_abort createResponse this c ptr qret w l w0 tr0 st cr u)
      by done.
    intros [= <-]. simpl. split; [by right|]. intros _.
    do 2 (split; [done|]). rewrite count_events_app, Htr0.
    split; [done|]. eexists. split; [apply lookup_insert_eq|done].
  - rewrite (handle_build createResponse this c ptr qret w l w0 tr0 st cr u)
      by done.
    intros [= <-]. simpl. split; [by left|]. done.
Qed.

End MoreDynamic.

Section MoreRuns.

Context {U : Type}.
Variable inet_ntop : Z -> list Z -> string -> string.
Variable createResponse : @createResponse_t U.
Variable this : cref.

Implicit Types (w : @World U) (objs : gmap cref (@Controller U)).

Abbreviation handle :=
  (DynamicController_handleRequest Controller_create_state createResponse this).

Lemma run_connection_app (h : @handler_t U) (acts1 acts2 : list Activation) :
  ∀ ptr w,
  run_connection h (acts1 ++ acts2) ptr w =
    '(rs1, ptr1, w1) ← run_connection h acts1 ptr w;
    '(rs2, ptr2, w2) ← run_connection h acts2 ptr1 w1;
    Some (rs1 ++ rs2, ptr2, w2).
Proof.
  induction acts1 as [|a acts1 IH]; intros ptr w; simpl.
  - by destruct (run_connection h acts2 ptr w) as [[[??]?]|].
  - destruct (h (act_call a) ptr (act_qret a) w) as [out|]; [simpl|done].
    rewrite IH.
    destruct (run_connection h acts1 (slot out) (world out))
      as [[[rs1 ptr1] w1]|]; [simpl|done].
    by destruct (run_connection h acts2 ptr1 w1) as [[[??]?]|].
Qed.

Lemma set_counter_twice (a b : Z) (st : ConnectionState) :
  set_request_waiting_loop_counter a (set_request_waiting_loop_counter b st)
    = set_request_waiting_loop_counter a st.
Proof. done. Qed.

(** Below the ceiling every activation without body sleeps and returns
    [MHD_YES], and all that changes is the counter. *)
Lemma run_awaiting_below (acts : list Activation) : ∀ w l st k,
  states w !! l = Some st →
  response_sent st = false →
  response_data st = ""%string →
  request_waiting_loop_counter st = k →
  0 ≤ k →
  k + Z.of_nat (length acts) ≤ waiting_loops w →
  waiting_loops w < 2 ^ 32 →
  Forall awaiting_body acts →
  ∃ w',
    run_connection handle acts (Some l) w
      = Some (replicate (length acts)
                (MHD_YES, [EvNanosleep (waiting_usec_sleep w).1
                                       (waiting_usec_sleep w).2]),
              Some l, w')
    ∧ states w'
        = <[l := set_request_waiting_loop_counter (k + Z.of_nat (length acts)) st]>
            (states w)
    ∧ user w' = user w.
Proof.
  induction acts as [|a acts IH];
    intros w l st k Hst Hsent Hdata Hk Hk0 Hlen Hwl Hall.
  - exists w. simpl. split; [done|]. split; [|done].
    rewrite Z.add_0_r, <- Hk. symmetry. apply insert_id.
    rewrite Hst. by destruct st.
  - apply Forall_cons in Hall as [[Hm Hup] Hall]. simpl in Hlen.
    pose proof (handle_awaiting createResponse this (act_call a) (Some l)
                  (act_qret a) w l w [] st eq_refl Hst Hsent Hdata Hm Hup)
      as Hstep.
    simpl in Hstep. rewrite Hk, wrap32_small in Hstep by lia.
    destruct (Z.ltb_spec (waiting_loops w) (k + 1)) as [Hgt|_]; [lia|].
    set (st1 := set_request_waiting_loop_counter (k + 1) st) in *.
    destruct (IH (update_state l st1 w) l st1 (k + 1))
      as (w' & Hrun & Hstates & Huser);
      [apply lookup_insert_eq|done|done|done|lia|simpl; lia|done|done|].
    exists w'. simpl. rewrite Hstep. simpl. rewrite Hrun. simpl.
    split; [done|]. split; [|done].
    rewrite Hstates. simpl. rewrite insert_insert_eq.
    unfold st1. rewrite set_counter_twice. do 2 f_equal. lia.
Qed.

(** X4. Waiting and answering compose.  From a waiting state with
    counter [k], activations without body that stay within the ceiling
    each sleep and return [MHD_YES]; when the body then arrives,
    [createResponse] is called once, on the state with the counter at
    [k] plus the number of waits, and its answer is cached and queued in
    that activation. *)
Theorem wait_then_build
    (waits : list Activation) (a : Activation) w l st (k : Z) cr u :
  states w !! l = Some st →
  response_sent st = false →
  response_data st = ""%string →
  request_waiting_loop_counter st = k →
  0 ≤ k →
  k + Z.of_nat (length waits) ≤ waiting_loops w →
  waiting_loops w < 2 ^ 32 →
  Forall awaiting_body waits →
  body_ready (act_call a) →
  createResponse (act_call a)
    (set_request_waiting_loop_counter (k + Z.of_nat (length waits)) st) (user w)
    = (cr, u) →
  response_code (cr_params cr) ≠ MHD_NO →
  ∃ w',
    run_connection handle (waits ++ [a]) (Some l) w
      = Some (replicate (length waits)
                (MHD_YES, [EvNanosleep (waiting_usec_sleep w).1
                                       (waiting_usec_sleep w).2])
              ++ [(MHD_YES,
                    [EvCreateResponse this;
                     EvQueueResponse MHD_HTTP_OK (cr_response cr)
                       (headers (cr_params cr))])],
              Some l, w')
    ∧ states w' !! l =
        Some (mark_sent (act_qret a)
                (set_response (cr_response cr) (headers (cr_params cr))
                   (set_request_data (cr_request_data cr)
                      (set_request_waiting_loop_counter
                         (k + Z.of_nat (length waits)) st))))
    ∧ user w' = u.
Proof.
  intros Hst Hsent Hdata Hk Hk0 Hlen Hwl Hall Hready Hcr Hcode.
  destruct (run_awaiting_below waits w l st k) as (w1 & Hrun & Hstates & Huser);
    [done..|].
  set (stk := set_request_waiting_loop_counter (k + Z.of_nat (length waits)) st)
    in *.
  assert (states w1 !! l = Some stk) as Hstk.
  { rewrite Hstates. apply lookup_insert_eq. }
  rewrite <- Huser in Hcr.
  pose proof (handle_build createResponse this (act_call a) (Some l)
                (act_qret a) w1 l w1 [] stk cr u eq_refl Hstk Hsent Hdata
                Hready Hcr Hcode) as Hstep.
  simpl in Hstep.
  eexists. rewrite run_connection_app, Hrun. simpl. rewrite Hstep. simpl.
  split; [reflexivity|]. split; [apply lookup_insert_eq|done].
Qed.

(** X5. Serving one connection leaves the states of the others alone.
    On a server of dynamic controllers, after any activations of a new
    connection, every state that was on the heap before is still there
    unchanged, and the connection's own state is at none of their
    addresses. *)
Theorem other_connections_untouched
    objs (server : @WebServer U) (acts : list Activation) w rs ptr' w' :
  all_dynamic objs →
  registered objs server →
  run_connection (request_handler inet_ntop objs server) acts None w
    = Some (rs, ptr', w') →
  ∀ l' st', states w !! l' = Some st' →
    states w' !! l' = Some st' ∧ ptr' ≠ Some l'.
Proof.
  intros Hdyn Hreg Hrun l' st' Hl'.
  destruct (run_connection_heap inet_ntop objs server (states w) acts None w
              Hdyn Hreg) as (rs0 & ptr0 & w0 & Hrun0 & Hheap & _); [done|].
  rewrite Hrun in Hrun0. injection Hrun0 as <- <- <-.
  destruct ptr' as [l|]; simpl in Hheap.
  - destruct Hheap as (Hfresh & st & -> & _).
    assert (l ≠ l') as Hne by (intros ->; congruence).
    split; [by rewrite lookup_insert_ne|]. by intros [= ->].
  - by rewrite Hheap.
Qed.

(** X6. Completion leaves the address of the deleted state in the slot.
    After [request_complete_handler] has run for a live state, a second
    completion with the same slot, and likewise a further
    [handleRequest], dereferences the deleted state: neither is defined. *)
Theorem completed_slot_is_stale
    objs (l : loc) (toe toe' : MHD_RequestTerminationCode) w st ctl
    (c : Call) (qret : Z) :
  states w !! l = Some st →
  objs !! conroller st = Some ctl →
  handleComplete ctl = Controller_handleComplete →
  ∃ w' tr,
    request_complete_handler objs (Some l) toe w = Some (w', tr)
    ∧ states w' !! l = None
    ∧ request_complete_handler objs (Some l) toe' w' = None
    ∧ handle c (Some l) qret w' = None.
Proof.
  intros Hst Hctl Hdefault.
  rewrite (request_complete_handler_default objs l toe w st ctl) by done.
  eexists _, _. split; [reflexivity|].
  assert (delete l (states w) !! l = None) as Hgone by apply lookup_delete_eq.
  split; [done|]. split.
  - unfold request_complete_handler. simpl. by rewrite Hgone.
  - unfold DynamicController_handleRequest. simpl. by rewrite Hgone.
Qed.

End MoreRuns.

(** * Further properties of the dispatcher and of admission *)

Section MoreServer.

Context {U : Type}.
Variable inet_ntop : Z -> list Z -> string -> string.

Implicit Types (w : @World U) (o : @options_t U) (server : @WebServer U).
Implicit Types (objs : gmap cref (@Controller U)).

Lemma request_handler_scan_without_null objs (cs : list (option cref))
    (c : Call) ptr qret w :
  request_handler_scan objs (filter (λ e, is_Some e) cs) c ptr qret w
    = request_handler_scan objs cs c ptr qret w.
Proof.
  induction cs as [|[r|] cs IH].
  - done.
  - rewrite filter_cons_True by done. simpl.
    destruct (objs !! r) as [ctl|]; [simpl|done].
    destruct (validPath ctl (url c) (method c)); [done|]. by rewrite IH.
  - rewrite filter_cons_False by (by intros [? ?]). exact IH.
Qed.

(** X7. Null entries of the controller vector make no difference: a
    server answers every activation as the server without them does. *)
Theorem null_controllers_are_skipped objs server (c : Call) ptr qret w :
  request_handler inet_ntop objs
    (mkWebServer (port_ server) (options_ server)
       (filter (λ e, is_Some e) (controllers server))) c ptr qret w
  = request_handler inet_ntop objs server c ptr qret w.
Proof.
  unfold request_handler, is_ip_allowed. simpl.
  destruct (negb _); [done|]. apply request_handler_scan_without_null.
Qed.

Lemma request_handler_scan_matched objs (cs more : list (option cref))
    (c : Call) ptr qret w :
  (∀ r, Some r ∈ cs → is_Some (objs !! r)) →
  (∃ r ctl, Some r ∈ cs ∧ objs !! r = Some ctl
            ∧ validPath ctl (url c) (method c) = true) →
  request_handler_scan objs (cs ++ more) c ptr qret w
    = request_handler_scan objs cs c ptr qret w.
Proof.
  induction cs as [|[r|] cs IH]; intros Hreg (r0 & ctl0 & Hin & Hr0 & Hv0).
  - by apply elem_of_nil in Hin.
  - simpl. destruct (Hreg r) as [ctl Hr]; [left|]. rewrite Hr. simpl.
    destruct (validPath ctl (url c) (method c)) eqn:Hv; [done|].
    rewrite IH; [done| |].
    + intros r' Hr'. apply Hreg. by right.
    + exists r0, ctl0. split; [|done].
      apply elem_of_cons in Hin as [[= ->]|Hin]; [|done]. congruence.
  - simpl. apply IH.
    + intros r' Hr'. apply Hreg. by right.
    + exists r0, ctl0. split; [|done].
      by apply elem_of_cons in Hin as [[=]|Hin].
Qed.

(** X8. Registering one more controller does not change the routing of
    what is already routed: a request that some registered controller
    accepts gets the same outcome, with the same effects, after
    [addController] as before, whether or not the new controller would
    accept it too. *)
Theorem addController_keeps_routing
    objs server (controller : option cref) (c : Call) ptr qret w :
  registered objs server →
  (∃ r ctl, Some r ∈ controllers server ∧ objs !! r = Some ctl
            ∧ validPath ctl (url c) (method c) = true) →
  request_handler inet_ntop objs (addController server controller) c ptr qret w
    = request_handler inet_ntop objs server c ptr qret w.
Proof.
  intros Hreg Hmatch. unfold request_handler, is_ip_allowed. simpl.
  destruct (negb _); [done|]. by apply request_handler_scan_matched.
Qed.

Lemma until_nul_c_string (text rest : string) :
  has_nul text = false →
  until_nul (text +:+ String Ascii.zero rest) = text.
Proof.
  induction text as [|a text IH]; simpl; [done|].
  intros H. apply orb_false_iff in H as [Ha Hrest].
  rewrite Ha. f_equal. by apply IH.
Qed.

Lemma until_nul_has_no_nul (buf : string) : has_nul (until_nul buf) = false.
Proof.
  induction buf as [|a buf IH]; simpl; [done|].
  destruct (Ascii.eqb a Ascii.zero) eqn:Ha; simpl; [done|].
  by rewrite Ha.
Qed.

(** X9. For a peer with an IPv4 or IPv6 address, [connection_ip] is the
    C string that [inet_ntop] wrote: when the buffer holds a text without
    NUL followed by a NUL, the address is that text, whatever follows the
    NUL, and the admission check is [is_allowed_ip] of that text. *)
Theorem connection_ip_reads_c_string
    server (conn : MHD_Connection) (sa : sockaddr) (text rest : string) :
  client_address_info conn = Some (Some sa) →
  sa_family sa = AF_INET ∨ sa_family sa = AF_INET6 →
  inet_ntop (sa_family sa) (sa_addr sa) client_ip_zeroed
    = text +:+ String Ascii.zero rest →
  has_nul text = false →
  connection_ip inet_ntop conn = text
  ∧ is_ip_allowed inet_ntop server conn = is_allowed_ip (options_ server) text.
Proof.
  intros Hinfo Hfam Hbuf Hnul.
  assert (connection_ip inet_ntop conn = text) as Hip.
  { unfold connection_ip. rewrite Hinfo.
    destruct Hfam as [Hfam|Hfam]; rewrite Hfam in *; simpl;
      rewrite Hbuf; by apply until_nul_c_string. }
  split; [done|]. unfold is_ip_allowed. by rewrite Hip.
Qed.

(** X10. Whatever the peer descriptor holds and whatever [inet_ntop]
    leaves in the buffer, the address that [connection_ip] returns
    contains no NUL character; when [inet_ntop] leaves the zeroed buffer
    untouched, the address is empty. *)
Theorem connection_ip_has_no_nul (conn : MHD_Connection) :
  has_nul (connection_ip inet_ntop conn) = false
  ∧ ((∀ af addr, inet_ntop af addr client_ip_zeroed = client_ip_zeroed) →
     connection_ip inet_ntop conn = ""%string).
Proof.
  unfold connection_ip.
  destruct (client_address_info conn) as [[sa|]|]; [|done..].
  split.
  - destruct (_ =? AF_INET); [apply until_nul_has_no_nul|].
    destruct (_ =? AF_INET6); [apply until_nul_has_no_nul|done].
  - intros Hfail. rewrite !Hfail.
    destruct (_ =? AF_INET); [done|]. by destruct (_ =? AF_INET6).
Qed.

(** X11. The allow-list is a set: when every entry of one list occurs in
    another, every address the first admits is admitted by the second.
    So the order of the entries and repeated entries do not matter, and
    adding entries never locks out an address. *)
Theorem is_allowed_ip_monotone o1 o2 (ip : string) :
  allowed_ips o1 ⊆ allowed_ips o2 →
  is_allowed_ip o1 ip = true →
  is_allowed_ip o2 ip = true.
Proof.
  intros Hsub. rewrite !is_allowed_ip_true.
  intros [H|[H|H]]; [left|right; left|right; right]; by apply Hsub.
Qed.

End MoreServer.

(** * Further properties of the daemon start loop *)

Section MoreDaemon.

Context {U : Type}.

Implicit Types (o : @options_t U) (server : @WebServer U).

Lemma count_daemon_events_app (p : daemon_event → bool) (tr1 tr2 : list daemon_event) :
  count_daemon_events p (tr1 ++ tr2)
    = (count_daemon_events p tr1 + count_daemon_events p tr2)%nat.
Proof. induction tr1 as [|e tr1 IH]; simpl; [done|]. rewrite IH. lia. Qed.

(** One pass, whatever the answers: one [socket] call; a descriptor is
    closed or handed to the engine; a wait unless the daemon started;
    [attempts] goes down by the number of engine starts. *)
Lemma start_daemon_body_facts (port : Z) o (a : Answers) (attempts : Z) d n tr :
  start_daemon_body port o a attempts = (d, n, tr) →
  count_daemon_events is_DSocket tr = 1%nat
  ∧ count_daemon_events is_DSocket_ok tr
      = (count_daemon_events is_DClose tr
         + count_daemon_events is_DStartDaemon tr)%nat
  ∧ count_daemon_events is_DSleep tr = (if d is Some _ then 0 else 1)%nat
  ∧ Z.of_nat (count_daemon_events is_DStartDaemon tr) = attempts - n
  ∧ (∀ h, d = Some h →
       ∃ fd tr', tr = tr' ++ [DStartDaemon (bool_decide (is_Some (certificate o)))
                                fd (Some h)]
                 ∧ count_daemon_events is_started tr' = 0%nat)
  ∧ (d = None → count_daemon_events is_started tr = 0%nat).
Proof.
  unfold start_daemon_body. cbv zeta.
  destruct (Z.eqb_spec (socket_ret a) (-1)) as [Hs|Hs].
  { intros [= <- <- <-]. rewrite Hs. simpl. repeat split; first [lia | done]. }
  assert (negb (socket_ret a =? -1) = true) as Hok.
  { apply negb_true_iff. by apply Z.eqb_neq. }
  set (tr1 := if negb (String.eqb (bind_interface o) "") then _ else _).
  assert (count_daemon_events is_DSocket tr1 = 1%nat
          ∧ count_daemon_events is_DSocket_ok tr1 = 1%nat
          ∧ count_daemon_events is_DClose tr1 = 0%nat
          ∧ count_daemon_events is_DStartDaemon tr1 = 0%nat
          ∧ count_daemon_events is_DSleep tr1 = 0%nat
          ∧ count_daemon_events is_started tr1 = 0%nat)
    as (H1 & H2 & H3 & H4 & H5 & H6).
  { unfold tr1. destruct (String.eqb_spec (bind_interface o) ""); simpl;
      rewrite Hok; by repeat split. }
  clearbody tr1.
  destruct (_ && _); [|destruct (bind_ret a =? -1);
                        [|destruct (listen_ret a =? -1);
                           [|destruct (MHD_start_daemon_ret a) as [h|]]]];
    intros [= <- <- <-];
    rewrite !count_daemon_events_app, H1, H2, H3, H4, H5, ?H6; simpl;
    repeat split; try first [lia | done].
  intros h' [= <-]. eexists _, _. split; [reflexivity|].
  by rewrite !count_daemon_events_app, H6.
Qed.

(** One pass, descriptor by descriptor: what is closed or handed to the
    engine is the descriptor that [socket] returned in this pass, and a
    failed [socket] is followed by neither. *)
Lemma start_daemon_body_descriptors (port : Z) o (a : Answers) (attempts : Z)
    d n tr :
  start_daemon_body port o a attempts = (d, n, tr) →
  ∀ fd,
    (count_daemon_events (is_DClose_of fd) tr
     + count_daemon_events (is_DStartDaemon_of fd) tr)%nat
    = if fd =? -1 then 0%nat else count_daemon_events (is_DSocket_of fd) tr.
Proof.
  unfold start_daemon_body. cbv zeta.
  destruct (Z.eqb_spec (socket_ret a) (-1)) as [Hs|Hs].
  { intros [= <- <- <-] fd. rewrite Hs.
    cbn [count_daemon_events is_DSocket_of is_DClose_of is_DStartDaemon_of].
    destruct (Z.eqb_spec fd (-1)); [done|].
    by destruct (Z.eqb_spec (-1) fd); [congruence|]. }
  destruct (negb (String.eqb (bind_interface o) "")); simpl;
    try destruct (setsockopt_ret a <? 0);
    try destruct (bind_ret a =? -1);
    try destruct (listen_ret a =? -1);
    try destruct (MHD_start_daemon_ret a);
    intros [= <- <- <-] fd; simpl;
    destruct (Z.eqb_spec (socket_ret a) fd) as [Heq|Hne];
    destruct (Z.eqb_spec fd (-1)) as [Hm|Hfd]; simpl;
    first [lia | done | congruence].
Qed.

Lemma start_daemon_body_attempts (port : Z) o (a : Answers) (attempts : Z) :
  (start_daemon_body port o a attempts).1.2 = attempts
  ∨ (start_daemon_body port o a attempts).1.2 = attempts - 1.
Proof.
  unfold start_daemon_body. cbv zeta.
  destruct (_ =? -1); [by left|]. destruct (_ && _); [by left|].
  destruct (_ =? -1); [by left|]. destruct (_ =? -1); [by left|]. by right.
Qed.

(** The facts of one pass, added up over the loop. *)
Lemma start_daemon_loop_facts (port : Z) o (os : nat → Answers) (fuel : nat) :
  ∀ i attempts d n tr,
  -1 ≤ attempts →
  start_daemon_loop fuel port o os i None attempts = Some (d, n, tr) →
  count_daemon_events is_DSocket_ok tr
    = (count_daemon_events is_DClose tr
       + count_daemon_events is_DStartDaemon tr)%nat
  ∧ count_daemon_events is_DSocket tr
    = (count_daemon_events is_DSleep tr + (if d is Some _ then 1 else 0))%nat
  ∧ Z.of_nat (count_daemon_events is_DStartDaemon tr) = attempts - n
  ∧ (d = None → n = -1)
  ∧ (∀ h, d = Some h →
       ∃ fd tr', tr = tr' ++ [DStartDaemon (bool_decide (is_Some (certificate o)))
                                fd (Some h)]
                 ∧ count_daemon_events is_started tr' = 0%nat)
  ∧ (d = None → count_daemon_events is_started tr = 0%nat).
Proof.
  induction fuel as [|fuel IH]; intros i attempts d n tr Hmin; simpl.
  { destruct (Z.leb_spec 0 attempts); [done|].
    intros [= <- <- <-]. simpl. repeat split; first [lia | done]. }
  destruct (Z.leb_spec 0 attempts) as [Hpos|Hneg]; cycle 1.
  { intros [= <- <- <-]. simpl. repeat split; first [lia | done]. }
  pose proof (start_daemon_body_attempts port o (os i) attempts) as Hatt.
  destruct (start_daemon_body port o (os i) attempts) as [[d1 n1] tr1] eqn:Hbody.
  simpl in Hatt.
  destruct (start_daemon_body_facts port o (os i) attempts d1 n1 tr1 Hbody)
    as (B1 & B2 & B3 & B4 & B5 & B6).
  destruct d1 as [h|].
  - destruct fuel; simpl; intros [= <- <- <-]; rewrite app_nil_r;
      (repeat split; [done|lia|lia|done|done|done]).
  - destruct (start_daemon_loop fuel port o os (S i) None n1)
      as [[[d2 n2] tr2]|] eqn:Hrest; [simpl|done].
    intros [= <- <- <-].
    destruct (IH (S i) n1 d2 n2 tr2) as (L1 & L2 & L3 & L4 & L5 & L6);
      [lia|done|].
    rewrite !count_daemon_events_app.
    repeat split; [lia|lia|lia|done| |].
    + intros h Hh. destruct (L5 h Hh) as (fd & tr' & -> & Hnone).
      exists fd, (tr1 ++ tr'). split; [by rewrite app_assoc|].
      by rewrite count_daemon_events_app, B6, Hnone.
    + intros Hd. by rewrite B6, L6.
Qed.

Lemma start_daemon_loop_descriptors (port : Z) o (os : nat → Answers)
    (fuel : nat) :
  ∀ i attempts d n tr,
  start_daemon_loop fuel port o os i None attempts = Some (d, n, tr) →
  ∀ fd,
    (count_daemon_events (is_DClose_of fd) tr
     + count_daemon_events (is_DStartDaemon_of fd) tr)%nat
    = if fd =? -1 then 0%nat else count_daemon_events (is_DSocket_of fd) tr.
Proof.
  induction fuel as [|fuel IH]; intros i attempts d n tr; simpl.
  { destruct (0 <=? attempts); [done|].
    intros [= <- <- <-] fd. simpl. by destruct (fd =? -1). }
  destruct (0 <=? attempts); cycle 1.
  { intros [= <- <- <-] fd. simpl. by destruct (fd =? -1). }
  destruct (start_daemon_body port o (os i) attempts) as [[d1 n1] tr1] eqn:Hbody.
  pose proof (start_daemon_body_descriptors port o (os i) attempts d1 n1 tr1
                Hbody) as Hb.
  destruct d1 as [h|].
  - destruct fuel; simpl; intros [= <- <- <-] fd; rewrite app_nil_r; apply Hb.
  - destruct (start_daemon_loop fuel port o os (S i) None n1)
      as [[[d2 n2] tr2]|] eqn:Hrest; [simpl|done].
    intros [= <- <- <-] fd. specialize (Hb fd).
    pose proof (IH (S i) n1 d2 n2 tr2 Hrest fd) as Hl.
    rewrite !count_daemon_events_app. destruct (fd =? -1); lia.
Qed.

Lemma start_daemon_unfold (fuel : nat) server (os : nat → Answers) d tr :
  start_daemon fuel server None os = Some (d, tr) →
  ∃ n, start_daemon_loop fuel (port_ server) (options_ server) os 0 None 12
         = Some (d, n, tr).
Proof.
  unfold start_daemon.
  destruct (start_daemon_loop _ _ _ _ _ _ _) as [[[d0 n0] tr0]|]; [simpl|done].
  intros [= <- <-]. by exists n0.
Qed.

(** With a daemon in the member, [start_daemon] stops it and leaves the
    loop aside. *)
Lemma start_daemon_stored (fuel : nat) server (h : nat) (os : nat → Answers) :
  start_daemon fuel server (Some h) os = Some (Some h, [DStop h]).
Proof. unfold start_daemon. by destruct fuel. Qed.

(** X12. Every descriptor that [socket] returns is accounted for: when
    [start_daemon] returns, whatever the operating system answered, then
    for each descriptor the number of times it was closed or handed to
    [MHD_start_daemon] is the number of times [socket] returned it, and
    nothing is closed or handed over after a failed [socket]; every pass
    but the successful one was followed by a wait. *)
Theorem start_daemon_socket_accounting
    (fuel : nat) server (os : nat → Answers) d tr :
  start_daemon fuel server None os = Some (d, tr) →
  count_daemon_events is_DSocket_ok tr
    = (count_daemon_events is_DClose tr
       + count_daemon_events is_DStartDaemon tr)%nat
  ∧ count_daemon_events is_DSocket tr
    = (count_daemon_events is_DSleep tr + (if d is Some _ then 1 else 0))%nat
  ∧ ∀ fd,
      (count_daemon_events (is_DClose_of fd) tr
       + count_daemon_events (is_DStartDaemon_of fd) tr)%nat
      = if fd =? -1 then 0%nat else count_daemon_events (is_DSocket_of fd) tr.
Proof.
  intros [n Hloop]%start_daemon_unfold.
  destruct (start_daemon_loop_facts (port_ server) (options_ server) os _
              0%nat 12 d n tr ltac:(lia) Hloop)
    as (L1 & L2 & _).
  split; [done|]. split; [done|].
  by apply (start_daemon_loop_descriptors (port_ server) (options_ server) os
              fuel 0%nat 12 d n).
Qed.

(** X13. How [start_daemon] can return, in three ways.  Called with a
    daemon in [daemon_], it stops that daemon, keeps the handle and does
    nothing else.  Called without one, it returns either with a daemon,
    and then its last action was the [MHD_start_daemon] that produced it
    and every engine start before failed; or without one, and then it
    has called [MHD_start_daemon] thirteen times, once for each value of
    [attempts] from 12 down to 0, and every call failed. *)
Theorem start_daemon_result
    (fuel : nat) server (daemon_ : option nat) (os : nat → Answers) d tr :
  start_daemon fuel server daemon_ os = Some (d, tr) →
  match daemon_ with
  | Some h0 => d = Some h0 ∧ tr = [DStop h0]
  | None =>
      match d with
      | Some h =>
          ∃ fd tr',
            tr = tr' ++ [DStartDaemon
                           (bool_decide (is_Some (certificate (options_ server))))
                           fd (Some h)]
            ∧ count_daemon_events is_started tr' = 0%nat
      | None =>
          count_daemon_events is_DStartDaemon tr = 13%nat
          ∧ count_daemon_events is_started tr = 0%nat
      end
  end.
Proof.
  destruct daemon_ as [h0|].
  { rewrite start_daemon_stored. by intros [= <- <-]. }
  intros [n Hloop]%start_daemon_unfold.
  destruct (start_daemon_loop_facts (port_ server) (options_ server) os _
              0%nat 12 d n tr ltac:(lia) Hloop)
    as (_ & _ & L3 & L4 & L5 & L6).
  destruct d as [h|].
  - by apply L5.
  - split; [|by apply L6]. rewrite L4 in L3 by done. lia.
Qed.

Lemma start_daemon_body_rejected (port : Z) o (address : string) (a : Answers)
    (attempts : Z) :
  bind_loopback o = true ∨ inet_pton_ret a = None →
  start_daemon_body port
    (mkOptions (bind_loopback o) address (bind_interface o) (certificate o)
       (handler_should_terminate o) (allowed_ips o)) a attempts
  = start_daemon_body port
      (mkOptions (bind_loopback o) "" (bind_interface o) (certificate o)
         (handler_should_terminate o) (allowed_ips o)) a attempts.
Proof.
  intros H. unfold start_daemon_body, bind_addr_of. simpl.
  destruct H as [-> | ->]; [done|].
  destruct (bind_loopback o); [done|].
  by destruct (String.eqb address "").
Qed.

Lemma start_daemon_loop_rejected (port : Z) o (address : string)
    (os : nat → Answers) :
  (∀ i, inet_pton_ret (os i) = None) →
  ∀ fuel i daemon_ attempts,
  start_daemon_loop fuel port
    (mkOptions (bind_loopback o) address (bind_interface o) (certificate o)
       (handler_should_terminate o) (allowed_ips o)) os i daemon_ attempts
  = start_daemon_loop fuel port
      (mkOptions (bind_loopback o) "" (bind_interface o) (certificate o)
         (handler_should_terminate o) (allowed_ips o)) os i daemon_ attempts.
Proof.
  intros Hos. induction fuel as [|fuel IH]; intros i daemon_ attempts; [done|].
  simpl. rewrite start_daemon_body_rejected by (right; apply Hos).
  destruct (_ && _); [|done].
  destruct (start_daemon_body _ _ _ _) as [[d n] tr]. by rewrite IH.
Qed.

(** X14. A [bind_address] that [inet_pton(AF_INET, ...)] rejects (an
    IPv6 or a malformed literal) is dropped without notice: the result
    of [inet_pton] is not looked at, the address stays zeroed, and with
    [bind_loopback] unset every pass binds the wildcard address.
    [start_daemon] then behaves, whether it returns or not, exactly as
    it does with no [bind_address] at all. *)
Theorem start_daemon_rejected_address_binds_wildcard
    (fuel : nat) server (address : string) (daemon_ : option nat)
    (os : nat → Answers) :
  bind_loopback (options_ server) = false →
  (∀ i, inet_pton_ret (os i) = None) →
  start_daemon fuel (with_bind_address address server) daemon_ os
    = start_daemon fuel (with_bind_address "" server) daemon_ os
  ∧ ∀ i attempts e,
      e ∈ (start_daemon_body (port_ server)
             (options_ (with_bind_address address server)) (os i) attempts).2 →
      is_DBind e = true →
      e = DBind (socket_ret (os i)) BindAny (port_ server) (bind_ret (os i)).
Proof.
  intros Hloop Hos. split.
  - unfold start_daemon, with_bind_address. simpl.
    by rewrite start_daemon_loop_rejected.
  - intros i attempts e.
    unfold with_bind_address, start_daemon_body, bind_addr_of. simpl.
    rewrite Hloop, (Hos i).
    assert ((if negb (String.eqb address "") then BindAny else BindAny)
            = BindAny) as -> by (by destruct (negb _)).
    destruct (socket_ret (os i) =? -1); simpl.
    { rewrite !elem_of_cons, elem_of_nil. intros [->|[->|[]]]; done. }
    destruct (negb (String.eqb (bind_interface (options_ server)) "")); simpl;
      try destruct (setsockopt_ret (os i) <? 0);
      try destruct (bind_ret (os i) =? -1);
      try destruct (listen_ret (os i) =? -1);
      try destruct (MHD_start_daemon_ret (os i));
      simpl; rewrite !elem_of_cons, elem_of_nil;
      intros Hin; decompose [or] Hin; subst; try done.
Qed.

Lemma start_daemon_body_reaches_engine (port : Z) o (a : Answers) (attempts : Z) :
  reaches_engine o a →
  ∃ tr,
    start_daemon_body port o a attempts
      = (MHD_start_daemon_ret a, attempts - 1, tr)
    ∧ count_daemon_events is_DClose tr = 0%nat.
Proof.
  intros (Hs & Hi & Hb & Hl). unfold start_daemon_body. cbv zeta.
  apply Z.eqb_neq in Hs, Hb, Hl. rewrite Hs, Hb, Hl.
  destruct (String.eqb_spec (bind_interface o) "") as [He|Hne]; simpl.
  - eexists. split; [reflexivity|]. by destruct (MHD_start_daemon_ret a).
  - specialize (Hi Hne). apply Z.ltb_ge in Hi. rewrite Hi.
    eexists. split; [reflexivity|]. by destruct (MHD_start_daemon_ret a).
Qed.

Lemma start_daemon_loop_reaching (port : Z) o (os : nat → Answers) :
  (∀ i, reaches_engine o (os i)) →
  ∀ fuel i attempts,
  -1 ≤ attempts < Z.of_nat fuel →
  ∃ d n tr,
    start_daemon_loop fuel port o os i None attempts = Some (d, n, tr)
    ∧ count_daemon_events is_DClose tr = 0%nat
    ∧ Z.of_nat (count_daemon_events is_DSocket tr) ≤ attempts + 1.
Proof.
  intros Hos. induction fuel as [|fuel IH]; intros i attempts Hfuel; simpl.
  { destruct (Z.leb_spec 0 attempts); [lia|].
    eexists _, _, _. split; [reflexivity|]. simpl. split; [done|lia]. }
  destruct (Z.leb_spec 0 attempts); cycle 1.
  { eexists _, _, _. split; [reflexivity|]. simpl. split; [done|lia]. }
  destruct (start_daemon_body_reaches_engine port o (os i) attempts (Hos i))
    as (tr1 & Hbody & Hc1).
  destruct (start_daemon_body_facts port o (os i) attempts _ _ _ Hbody)
    as (Hs1 & _).
  rewrite Hbody.
  destruct (MHD_start_daemon_ret (os i)) as [h|].
  - destruct fuel; simpl; eexists _, _, _;
      (split; [reflexivity|]); rewrite app_nil_r; (split; [done|lia]).
  - destruct (IH (S i) (attempts - 1)) as (d & n & tr & -> & Hc & Hs); [lia|].
    simpl. eexists _, _, _. split; [reflexivity|].
    rewrite !count_daemon_events_app, Hc1, Hc. split; [done|lia].
Qed.

(** X15. When no pass fails before the engine (every [socket],
    [setsockopt], [bind] and [listen] succeeds), [start_daemon] returns
    within thirteen passes, with the daemon of the first successful
    [MHD_start_daemon] or, after thirteen failures, without one; it opens
    at most thirteen sockets and closes none of them. *)
Theorem start_daemon_ends_within_thirteen_passes
    server (os : nat → Answers) :
  (∀ i, reaches_engine (options_ server) (os i)) →
  ∃ d tr,
    start_daemon 13 server None os = Some (d, tr)
    ∧ (count_daemon_events is_DSocket tr ≤ 13)%nat
    ∧ count_daemon_events is_DClose tr = 0%nat
    ∧ (d = None → count_daemon_events is_DStartDaemon tr = 13%nat).
Proof.
  intros Hos.
  destruct (start_daemon_loop_reaching (port_ server) (options_ server) os Hos
              13 0%nat 12) as (d & n & tr & Hloop & Hclose & Hsock); [lia|].
  exists d, tr. split; [unfold start_daemon; by rewrite Hloop|].
  destruct (start_daemon_loop_facts (port_ server) (options_ server) os _
              0%nat 12 d n tr ltac:(lia) Hloop) as (_ & _ & L3 & L4 & _).
  split; [lia|]. split; [done|].
  intros Hd. rewrite (L4 Hd) in L3. lia.
Qed.

End MoreDaemon.

(** * Properties of the supervising loop *)

Section MoreSupervisor.

Context {U : Type}.

Implicit Types (server : @WebServer U) (u : U).

Lemma start_loop_stored (fuel fuel_d : nat) server (probes : nat → Probe)
    (oss : nat → nat → Answers) (h : nat) :
  ∀ cycle calls u d' u' tr,
  start_loop fuel fuel_d server probes oss cycle calls (Some h) u
    = Some (d', u', tr) →
  d' = Some h ∧ Forall (λ e, e = DSleep 1 ∨ e = DStop h) tr.
Proof.
  induction fuel as [|fuel IH]; intros cycle calls u d' u' tr; simpl; [done|].
  rewrite start_daemon_stored. simpl.
  set (first := if is_daemon_alive (probes cycle)
                then Some (Some h, calls, [DSleep 1])
                else Some (Some h, S calls, [DSleep 1; DStop h])).
  assert (∃ calls' tr1, first = Some (Some h, calls', tr1)
                        ∧ Forall (λ e, e = DSleep 1 ∨ e = DStop h) tr1)
    as (calls' & tr1 & -> & Htr1).
  { unfold first. destruct (is_daemon_alive _); eexists _, _;
      (split; [reflexivity|]);
      repeat first [apply Forall_nil_2 | apply Forall_cons_2; [auto|]]. }
  simpl.
  assert (∀ u0,
            (start_loop fuel fuel_d server probes oss (S cycle) calls' (Some h) u0
             ≫= λ '(d, u1, tr'), Some (d, u1, tr1 ++ tr')) = Some (d', u', tr) →
            d' = Some h ∧ Forall (λ e, e = DSleep 1 ∨ e = DStop h) tr) as Hcont.
  { intros u0.
    destruct (start_loop fuel fuel_d server probes oss (S cycle) calls' (Some h) u0)
      as [[[d2 u2] tr2]|] eqn:Hrest; [simpl|done].
    intros [= <- <- <-]. destruct (IH _ _ _ _ _ _ Hrest) as [-> Htr2].
    split; [done|]. by apply Forall_app. }
  destruct (handler_should_terminate (options_ server)) as [sh|]; [|apply Hcont].
  destruct (sh u) as [[|] u1]; [|apply Hcont].
  by intros [= <- <- <-].
Qed.

Lemma start_loop_cycles_stored (n fuel_d : nat) server (probes : nat → Probe)
    (oss : nat → nat → Answers) (h : nat) :
  ∀ cycle calls u,
  ∃ c u' broke tr,
    start_loop_cycles n fuel_d server probes oss cycle calls (Some h) u
      = Some (Some h, c, u', broke, tr)
    ∧ Forall (λ e, e = DSleep 1 ∨ e = DStop h) tr.
Proof.
  induction n as [|n IH]; intros cycle calls u; simpl.
  { by eexists _, _, _, _. }
  rewrite start_daemon_stored. simpl.
  set (first := if is_daemon_alive (probes cycle)
                then Some (Some h, calls, [DSleep 1])
                else Some (Some h, S calls, [DSleep 1; DStop h])).
  assert (∃ calls' tr1, first = Some (Some h, calls', tr1)
                        ∧ Forall (λ e, e = DSleep 1 ∨ e = DStop h) tr1)
    as (calls' & tr1 & -> & Htr1).
  { unfold first. destruct (is_daemon_alive _); eexists _, _;
      (split; [reflexivity|]);
      repeat first [apply Forall_nil_2 | apply Forall_cons_2; [auto|]]. }
  simpl.
  assert (∀ u0, ∃ c u' broke tr,
            (start_loop_cycles n fuel_d server probes oss (S cycle) calls'
               (Some h) u0
             ≫= λ '(d, c0, u1, broke0, tr'), Some (d, c0, u1, broke0, tr1 ++ tr'))
            = Some (Some h, c, u', broke, tr)
            ∧ Forall (λ e, e = DSleep 1 ∨ e = DStop h) tr) as Hcont.
  { intros u0. destruct (IH (S cycle) calls' u0) as (c & u' & b & tr & -> & Htr).
    simpl. eexists _, _, _, _. split; [reflexivity|]. by apply Forall_app. }
  destruct (handler_should_terminate (options_ server)) as [sh|]; [|apply Hcont].
  destruct (sh u) as [[|] u1]; [|apply Hcont].
  by eexists _, _, _, _.
Qed.

(** A loop that [start_loop] sees end is the loop [start_loop_cycles]
    shows, left by [break]. *)
Lemma start_loop_cycles_agrees (fuel fuel_d : nat) server (probes : nat → Probe)
    (oss : nat → nat → Answers) :
  ∀ cycle calls daemon_ u d u' tr,
    start_loop fuel fuel_d server probes oss cycle calls daemon_ u
      = Some (d, u', tr) →
    ∃ c, start_loop_cycles fuel fuel_d server probes oss cycle calls daemon_ u
         = Some (d, c, u', true, tr).
Proof.
  induction fuel as [|fuel IH]; intros cycle calls daemon_ u d u' tr; [done|].
  simpl.
  destruct (if is_daemon_alive (probes cycle)
            then Some (daemon_, calls, [DSleep 1])
            else start_daemon fuel_d server daemon_ (oss calls)
                 ≫= λ '(d0, tr0), Some (d0, S calls, DSleep 1 :: tr0))
    as [[[d1 calls1] tr1]|]; [simpl|done].
  assert (∀ u0,
            (start_loop fuel fuel_d server probes oss (S cycle) calls1 d1 u0
             ≫= λ '(d0, u1, tr'), Some (d0, u1, tr1 ++ tr')) = Some (d, u', tr) →
            ∃ c, (start_loop_cycles fuel fuel_d server probes oss (S cycle)
                    calls1 d1 u0
                  ≫= λ '(d0, c0, u1, broke, tr'),
                       Some (d0, c0, u1, broke, tr1 ++ tr'))
                 = Some (d, c, u', true, tr)) as Hcont.
  { intros u0.
    destruct (start_loop fuel fuel_d server probes oss (S cycle) calls1 d1 u0)
      as [[[d2 u2] tr2]|] eqn:Hloop; [simpl|done].
    intros [= <- <- <-].
    destruct (IH _ _ _ _ _ _ _ Hloop) as [c ->]. by exists c. }
  destruct (handler_should_terminate (options_ server)) as [sh|]; [|apply Hcont].
  destruct (sh u) as [[|] u1]; [|apply Hcont].
  intros [= <- <- <-]. by eexists.
Qed.

(** X16. The restart does not restart.  [stop_daemon] leaves the handle
    in [daemon_], so once the first [start_daemon] of [start] has stored
    a daemon, every later [start_daemon] finds [daemon_] set and skips
    its loop.  For every number of cycles of the loop of [start], with
    or without a termination handler and however often
    [is_daemon_alive] answers false, [start] has by then opened no
    further socket and started no further engine: after the first start
    it has only slept one second per cycle and called [MHD_stop_daemon]
    on the same handle again, and [daemon_] is still that handle.  The
    same holds of the whole run when [start] returns. *)
Theorem start_never_listens_again
    (n fuel fuel_d : nat) server (probes : nat → Probe)
    (oss : nat → nat → Answers) u (h : nat) tr0 :
  start_daemon fuel_d server None (oss 0%nat) = Some (Some h, tr0) →
  (∃ c u' broke tr1,
     start_cycles n fuel_d server probes oss None u
       = Some (Some h, c, u', broke, tr0 ++ tr1)
     ∧ Forall (λ e, e = DSleep 1 ∨ e = DStop h) tr1)
  ∧ (∀ r d' u' tr,
       start fuel fuel_d server probes oss None u = Some (r, d', u', tr) →
       d' = Some h
       ∧ ∃ tr1, tr = tr0 ++ tr1
                ∧ Forall (λ e, e = DSleep 1 ∨ e = DStop h) tr1).
Proof.
  intros Hfirst. split.
  - unfold start_cycles. rewrite Hfirst. simpl.
    destruct (start_loop_cycles_stored n fuel_d server probes oss h 0%nat 1%nat u)
      as (c & u' & b & tr1 & -> & Htr1).
    simpl. by eexists _, _, _, _.
  - intros r d' u' tr. unfold start. rewrite Hfirst. simpl.
    destruct (start_loop fuel fuel_d server probes oss 0 1 (Some h) u)
      as [[[d2 u2] tr2]|] eqn:Hloop; [simpl|done].
    intros [= <- <- <- <-].
    destruct (start_loop_stored _ _ _ _ _ _ _ _ _ _ _ _ Hloop) as [-> Htr2].
    split; [done|]. eexists. split; [reflexivity|].
    apply Forall_app. split; [done|].
    repeat first [apply Forall_nil_2 | apply Forall_cons_2; [auto|]].
Qed.

Lemma start_loop_without_handler (fuel fuel_d : nat) server
    (probes : nat → Probe) (oss : nat → nat → Answers) :
  handler_should_terminate (options_ server) = None →
  ∀ cycle calls daemon_ u,
  start_loop fuel fuel_d server probes oss cycle calls daemon_ u = None.
Proof.
  intros Hnone. induction fuel as [|fuel IH]; intros cycle calls daemon_ u;
    simpl; [done|].
  rewrite Hnone.
  destruct (is_daemon_alive _); simpl; [by rewrite IH|].
  destruct (start_daemon _ _ _ _) as [[d tr]|]; simpl; [|done].
  by rewrite IH.
Qed.

(** X17. Without a termination handler [start] does not return: for
    every number of cycles it is given, whatever the daemon and the
    operating system do, it is still in its loop (or in a [start_daemon]
    that has not returned). *)
Theorem start_without_handler_never_returns
    (fuel fuel_d : nat) server (probes : nat → Probe)
    (oss : nat → nat → Answers) (daemon_ : option nat) u :
  handler_should_terminate (options_ server) = None →
  start fuel fuel_d server probes oss daemon_ u = None.
Proof.
  intros Hnone. unfold start.
  destruct (start_daemon _ _ _ _) as [[d tr]|]; simpl; [|done].
  by rewrite start_loop_without_handler.
Qed.

Lemma start_loop_alive_step (sh : U → bool * U) (fuel fuel_d : nat) server
    (probes : nat → Probe) (oss : nat → nat → Answers) (cycle calls : nat)
    (daemon_ : option nat) u :
  handler_should_terminate (options_ server) = Some sh →
  is_daemon_alive (probes cycle) = true →
  start_loop (S fuel) fuel_d server probes oss cycle calls daemon_ u
    = if (sh u).1 then Some (daemon_, (sh u).2, [DSleep 1])
      else '(d, u', tr') ← start_loop fuel fuel_d server probes oss (S cycle)
                             calls daemon_ (sh u).2;
           Some (d, u', DSleep 1 :: tr').
Proof.
  intros Hsh Halive. simpl. rewrite Halive, Hsh. simpl.
  by destruct (sh u) as [[|] u1].
Qed.

Lemma start_loop_first_true (sh : U → bool * U) (n : nat) :
  ∀ (extra fuel_d : nat) server (probes : nat → Probe)
    (oss : nat → nat → Answers) (cycle calls : nat) (daemon_ : option nat) u,
  handler_should_terminate (options_ server) = Some sh →
  (∀ c, is_daemon_alive (probes c) = true) →
  (∀ j, (j < n)%nat → (sh (polled sh j u)).1 = false) →
  (sh (polled sh n u)).1 = true →
  start_loop (S n + extra) fuel_d server probes oss cycle calls daemon_ u
    = Some (daemon_, (sh (polled sh n u)).2, replicate (S n) (DSleep 1)).
Proof.
  induction n as [|n IH];
    intros extra fuel_d server probes oss cycle calls daemon_ u Hsh Halive
      Hfalse Htrue;
    change (S ?k + extra)%nat with (S (k + extra));
    rewrite (start_loop_alive_step sh) by done.
  - simpl in Htrue. by rewrite Htrue.
  - pose proof (Hfalse 0%nat ltac:(lia)) as H0. simpl in H0. rewrite H0.
    rewrite (IH extra fuel_d server probes oss (S cycle) calls daemon_ (sh u).2);
      [done..| |done].
    intros j Hj. apply (Hfalse (S j)). lia.
Qed.

(** X18. With a daemon that stays alive, [start] returns at the first
    poll at which the termination handler answers true: when the first
    [n] polls answer false and the next one true, [start] sleeps [n + 1]
    times one second, passes the user's state from poll to poll, stops
    the daemon once and returns 1. *)
Theorem start_returns_at_first_true
    (sh : U → bool * U) (n extra fuel_d : nat) server (probes : nat → Probe)
    (oss : nat → nat → Answers) (daemon_ d0 : option nat) u tr0 :
  handler_should_terminate (options_ server) = Some sh →
  (∀ c, is_daemon_alive (probes c) = true) →
  start_daemon fuel_d server daemon_ (oss 0%nat) = Some (d0, tr0) →
  (∀ j, (j < n)%nat → (sh (polled sh j u)).1 = false) →
  (sh (polled sh n u)).1 = true →
  start (S n + extra) fuel_d server probes oss daemon_ u
    = Some (1, d0, (sh (polled sh n u)).2,
            tr0 ++ replicate (S n) (DSleep 1) ++ stop_daemon d0).
Proof.
  intros Hsh Halive Hfirst Hfalse Htrue.
  pose proof (start_loop_first_true sh n extra fuel_d server probes oss 0 1 d0 u
                Hsh Halive Hfalse Htrue) as Hloop.
  unfold start. rewrite Hfirst.
  change (Some (d0, tr0) ≫= ?f) with (f (d0, tr0)). cbv beta iota.
  by rewrite Hloop.
Qed.

End MoreSupervisor.

(** * Properties of the earlier revisions *)

Section Earlier.

Context {U : Type}.
Variable this : cref.

(** X19. In the revision of the include file nothing is kept between
    activations: a run of [n] activations calls [createResponse] [n]
    times and queues [n] responses, and each activation returns what
    [MHD_queue_response] answered. *)
Theorem include_handleRequest_rebuilds_every_time
    (createResponse : @Include.createResponse_t U) (acts : list Activation) (u : U) :
  map fst (Include.run_handler createResponse this acts u).1
    = map act_qret acts
  ∧ count_events is_EvCreateResponse
      (all_events (Include.run_handler createResponse this acts u).1)
    = length acts
  ∧ count_events is_EvQueueResponse
      (all_events (Include.run_handler createResponse this acts u).1)
    = length acts.
Proof.
  revert u. induction acts as [|a acts IH]; intros u; [done|].
  simpl. unfold Include.DynamicController_handleRequest.
  destruct (createResponse (act_call a) u) as [[params text] u1].
  specialize (IH u1).
  destruct (Include.run_handler createResponse this acts u1) as [rs u2].
  simpl in *. destruct IH as (IH1 & IH2 & IH3).
  unfold all_events in *. simpl. by rewrite IH1, IH2, IH3.
Qed.



End Earlier.

(** * The further statements at concrete inputs *)

Section MoreInstances.

Import Sample Sample2.

Abbreviation serve controller_createResponse this :=
  (DynamicController_handleRequest Controller_create_state
     controller_createResponse this).

(** The queueing of the upload's answer fails or succeeds: same return
    value, same effects, and the states differ in the sent flag only. *)
Lemma queue_answer_only_sets_sent_upload :
  ∃ o1 o2 st1 st2,
    serve Upload_createResponse 1%nat (act_call upload_abc) (Some 0%nat) MHD_NO
      (world_with waited_twice_state 300) = Some o1
    ∧ serve Upload_createResponse 1%nat (act_call upload_abc) (Some 0%nat) MHD_YES
        (world_with waited_twice_state 300) = Some o2
    ∧ ret o2 = ret o1
    ∧ trace o2 = trace o1
    ∧ slot o2 = slot o1
    ∧ user (world o2) = user (world o1)
    ∧ states (world o1) = <[0%nat := st1]> (states (world_with waited_twice_state 300))
    ∧ states (world o2) = <[0%nat := st2]> (states (world_with waited_twice_state 300))
    ∧ same_but_sent st1 st2
    ∧ (MHD_NO ≠ MHD_YES → response_sent st1 = response_sent waited_twice_state).
Proof.
  exact (queue_answer_only_sets_sent Upload_createResponse 1%nat
           (act_call upload_abc) (Some 0%nat) MHD_NO MHD_YES
           (world_with waited_twice_state 300) 0%nat _ [] waited_twice_state
           eq_refl eq_refl).
Defined.

(** After the response has been sent, three more activations do nothing. *)
Lemma sent_is_final_three :
  states (world_with sent_state 300) !! 0%nat = Some sent_state
  ∧ run_connection (serve Upload_createResponse 1%nat)
      (two_empty_posts ++ [upload_abc]) (Some 0%nat) (world_with sent_state 300)
    = Some ([(MHD_YES, []); (MHD_YES, []); (MHD_YES, [])], Some 0%nat,
            world_with sent_state 300).
Proof.
  split; [done|].
  exact (sent_is_final Upload_createResponse 1%nat
           (two_empty_posts ++ [upload_abc]) (world_with sent_state 300)
           0%nat sent_state eq_refl eq_refl).
Defined.

(** At the largest ceiling, two waits across the wrap-around of the
    counter both continue. *)
Lemma max_ceiling_never_times_out_at_wrap :
  waiting_loops (world_with near_wrap_state (2 ^ 32 - 1)) = 2 ^ 32 - 1
  ∧ Forall awaiting_body two_empty_posts
  ∧ ∃ rs w',
      run_connection (serve Upload_createResponse 1%nat) two_empty_posts
        (Some 0%nat) (world_with near_wrap_state (2 ^ 32 - 1))
        = Some (rs, Some 0%nat, w')
      ∧ length rs = length two_empty_posts
      ∧ Forall (λ r, r.1 = MHD_YES) rs.
Proof.
  assert (Forall awaiting_body two_empty_posts) as Hall by repeat constructor.
  split; [done|]. split; [exact Hall|].
  exact (max_ceiling_never_times_out Upload_createResponse 1%nat two_empty_posts
           (world_with near_wrap_state (2 ^ 32 - 1)) 0%nat near_wrap_state
           eq_refl eq_refl eq_refl eq_refl Hall).
Defined.

(** Two more waits from a counter of 2, then the upload: the callback
    sees the counter at 4 and its answer is cached. *)
Lemma wait_then_build_upload :
  Forall awaiting_body two_empty_posts
  ∧ body_ready (act_call upload_abc)
  ∧ ∃ w',
      run_connection (serve Upload_createResponse 1%nat)
        (two_empty_posts ++ [upload_abc]) (Some 0%nat)
        (world_with waited_twice_state 300)
        = Some (replicate 2 (MHD_YES, [EvNanosleep 0 10000000])
                ++ [(MHD_YES,
                      [EvCreateResponse 1%nat;
                       EvQueueResponse MHD_HTTP_OK "abc"
                         [("Content-Type"%string, "text/plain"%string)]])],
                Some 0%nat, w')
      ∧ states w' !! 0%nat =
          Some (mkConnectionState 1%nat "abc" true
                  [("Content-Type"%string, "text/plain"%string)] "abc" 4)
      ∧ user w' = 6%nat.
Proof.
  assert (Forall awaiting_body two_empty_posts) as Hall by repeat constructor.
  assert (body_ready (act_call upload_abc)) as Hready by (by right).
  split; [exact Hall|]. split; [exact Hready|].
  exact (wait_then_build Upload_createResponse 1%nat two_empty_posts upload_abc
           (world_with waited_twice_state 300) 0%nat waited_twice_state 2 _ _
           eq_refl eq_refl eq_refl eq_refl ltac:(lia) ltac:(simpl; lia)
           ltac:(simpl; lia) Hall Hready eq_refl ltac:(done)).
Defined.

(** While an upload is served on a new connection, the state of the
    connection at address 0 stays as it is. *)
Lemma other_connections_untouched_upload :
  all_dynamic objects
  ∧ registered objects open_server
  ∧ ∃ rs ptr' w',
      run_connection (request_handler inet_ntop objects open_server)
        (two_empty_posts ++ [upload_abc]) None (world_with sent_state 300)
        = Some (rs, ptr', w')
      ∧ states w' !! 0%nat = Some sent_state
      ∧ ptr' ≠ Some 0%nat.
Proof.
  split; [exact all_dynamic_objects|]. split; [exact registered_open_server|].
  eexists _, _, _. split; [reflexivity|].
  exact (other_connections_untouched inet_ntop objects open_server
           (two_empty_posts ++ [upload_abc]) (world_with sent_state 300) _ _ _
           all_dynamic_objects registered_open_server eq_refl
           0%nat sent_state eq_refl).
Defined.

(** The state at address 0, owned by [MyController], is completed; the
    slot is of no use afterwards. *)
Lemma completed_slot_is_stale_sent :
  objects !! conroller sent_state = Some MyController
  ∧ ∃ w' tr,
      request_complete_handler objects (Some 0%nat)
        MHD_REQUEST_TERMINATED_COMPLETED_OK (world_with sent_state 300)
        = Some (w', tr)
      ∧ states w' !! 0%nat = None
      ∧ request_complete_handler objects (Some 0%nat)
          MHD_REQUEST_TERMINATED_WITH_ERROR w' = None
      ∧ serve MyController_createResponse 0%nat (get localhost "/")
          (Some 0%nat) MHD_YES w' = None.
Proof.
  split; [done|].
  exact (completed_slot_is_stale MyController_createResponse 0%nat objects
           0%nat MHD_REQUEST_TERMINATED_COMPLETED_OK
           MHD_REQUEST_TERMINATED_WITH_ERROR (world_with sent_state 300)
           sent_state MyController (get localhost "/") MHD_YES
           eq_refl eq_refl eq_refl).
Defined.

(** [Blank] accepts everything; registered behind [MyController] it does
    not get the requests for "/". *)
Lemma addController_keeps_routing_blank :
  registered objects closed_server
  ∧ validPath Blank "/" "GET" = true
  ∧ request_handler inet_ntop objects (addController closed_server (Some 3%nat))
      (get (peer_v4 10 0 0 1) "/") None MHD_YES at_five
    = request_handler inet_ntop objects closed_server
        (get (peer_v4 10 0 0 1) "/") None MHD_YES at_five.
Proof.
  assert (registered objects closed_server) as Hreg.
  { intros r Hin. simpl in Hin.
    apply elem_of_cons in Hin as [[= ->]|Hin]; [by eexists|].
    apply elem_of_cons in Hin as [[= ->]|Hin]; [by eexists|].
    by apply elem_of_nil in Hin. }
  split; [exact Hreg|]. split; [done|].
  apply (addController_keeps_routing inet_ntop objects closed_server
           (Some 3%nat) (get (peer_v4 10 0 0 1) "/") None MHD_YES at_five Hreg).
  exists 0%nat, MyController. split; [by left|]. by split.
Defined.

(** The address of an IPv4 peer as the sample [inet_ntop] writes it. *)
Lemma connection_ip_reads_c_string_v4 :
  inet_ntop AF_INET [10; 0; 0; 2] (client_ip_zeroed)
    = "10.0.0.2" +:+ String Ascii.zero (zeroed 37)
  ∧ connection_ip inet_ntop (peer_v4 10 0 0 2) = "10.0.0.2"%string
  ∧ is_ip_allowed inet_ntop closed_server (peer_v4 10 0 0 2)
    = is_allowed_ip (options_ closed_server) "10.0.0.2".
Proof.
  split; [done|].
  exact (connection_ip_reads_c_string inet_ntop closed_server (peer_v4 10 0 0 2)
           (mkSockaddr AF_INET [10; 0; 0; 2]) "10.0.0.2" (zeroed 37)
           eq_refl (or_introl eq_refl) eq_refl eq_refl).
Defined.

(** The entries of the closed server's list, repeated and with one more,
    still admit 10.0.0.1. *)
Lemma is_allowed_ip_monotone_closed :
  allowed_ips (options_ closed_server)
    ⊆ ["192.0.2.7"; "10.0.0.1"; "10.0.0.1"]%string
  ∧ is_allowed_ip (options_ closed_server) "10.0.0.1" = true
  ∧ is_allowed_ip
      (mkOptions (U := clock) false "" "" None None
         ["192.0.2.7"; "10.0.0.1"; "10.0.0.1"]%string) "10.0.0.1" = true.
Proof.
  assert (allowed_ips (options_ closed_server)
            ⊆ ["192.0.2.7"; "10.0.0.1"; "10.0.0.1"]%string) as Hsub.
  { intros x Hx. simpl in Hx. apply list_elem_of_singleton in Hx as ->.
    right. by left. }
  split; [exact Hsub|]. split; [done|].
  exact (is_allowed_ip_monotone (options_ closed_server)
           (mkOptions false "" "" None None
              ["192.0.2.7"; "10.0.0.1"; "10.0.0.1"]%string)
           "10.0.0.1" Hsub eq_refl).
Defined.

(** On the flaky host: six sockets asked for, three obtained, two closed,
    one handed to the engine, five waits; every descriptor obtained was
    closed or handed over as often as it was obtained. *)
Lemma start_daemon_socket_accounting_flaky :
  ∃ tr,
    start_daemon 6 open_server None flaky = Some (Some 9%nat, tr)
    ∧ count_daemon_events is_DSocket_ok tr
      = (count_daemon_events is_DClose tr
         + count_daemon_events is_DStartDaemon tr)%nat
    ∧ count_daemon_events is_DSocket tr
      = (count_daemon_events is_DSleep tr + 1)%nat
    ∧ ∀ fd,
        (count_daemon_events (is_DClose_of fd) tr
         + count_daemon_events (is_DStartDaemon_of fd) tr)%nat
        = if fd =? -1 then 0%nat
          else count_daemon_events (is_DSocket_of fd) tr.
Proof.
  destruct (start_daemon 6 open_server None flaky) as [[d tr]|] eqn:Hrun;
    [|by vm_compute in Hrun].
  assert (d = Some 9%nat) as ->.
  { vm_compute in Hrun. by injection Hrun as <- _. }
  exists tr. split; [done|].
  exact (start_daemon_socket_accounting 6 open_server flaky (Some 9%nat) tr Hrun).
Defined.

(** On the flaky host the run ends with the engine start that gave
    daemon 9, the only engine start of the run. *)
Lemma start_daemon_result_flaky :
  ∃ tr,
    start_daemon 6 open_server None flaky = Some (Some 9%nat, tr)
    ∧ ∃ fd tr',
        tr = tr' ++ [DStartDaemon
                       (bool_decide (is_Some (certificate (options_ open_server))))
                       fd (Some 9%nat)]
        ∧ count_daemon_events is_started tr' = 0%nat.
Proof.
  destruct (start_daemon 6 open_server None flaky) as [[d tr]|] eqn:Hrun;
    [|by vm_compute in Hrun].
  assert (d = Some 9%nat) as ->.
  { vm_compute in Hrun. by injection Hrun as <- _. }
  exists tr. split; [done|].
  exact (start_daemon_result 6 open_server None flaky (Some 9%nat) tr Hrun).
Defined.

(** The server told to bind to "::1" binds the wildcard address, as the
    server without address does. *)
Lemma start_daemon_rejected_address_v6 :
  bind_loopback (options_ v6_literal_server) = false
  ∧ (start_daemon 6 (with_bind_address "::1" v6_literal_server) None flaky
     = start_daemon 6 (with_bind_address "" v6_literal_server) None flaky)
  ∧ ∀ i attempts e,
      e ∈ (start_daemon_body (port_ v6_literal_server)
             (options_ (with_bind_address "::1" v6_literal_server)) (flaky i)
             attempts).2 →
      is_DBind e = true →
      e = DBind (socket_ret (flaky i)) BindAny (port_ v6_literal_server)
            (bind_ret (flaky i)).
Proof.
  split; [done|].
  apply (start_daemon_rejected_address_binds_wildcard 6 v6_literal_server "::1"
           None flaky eq_refl).
  intros i. unfold flaky. destruct (Nat.even i); [done|]. by destruct (i <? 4)%nat.
Defined.

(** When [inet_pton] takes the text, the bind is to the address it
    wrote. *)
Lemma start_daemon_binds_literal :
  start_daemon 1 literal_server None takes_literal
  = Some (Some 9%nat,
          [DSocket 3; DBind 3 (BindLiteral [192; 0; 2; 1]) 8080 0; DListen 3 0;
           DStartDaemon false 3 (Some 9%nat)]).
Proof. done. Qed.

Lemma engine_third_pass_reaches_engine (i : nat) :
  reaches_engine (options_ open_server) (engine_third_pass i).
Proof.
  unfold engine_third_pass, reaches_engine. simpl.
  repeat split; first [lia | done].
Qed.

(** The engine starts at the third pass: three sockets, none closed. *)
Lemma start_daemon_ends_within_thirteen_passes_third :
  ∃ d tr,
    start_daemon 13 open_server None engine_third_pass = Some (d, tr)
    ∧ (count_daemon_events is_DSocket tr ≤ 13)%nat
    ∧ count_daemon_events is_DClose tr = 0%nat
    ∧ (d = None → count_daemon_events is_DStartDaemon tr = 13%nat).
Proof.
  exact (start_daemon_ends_within_thirteen_passes open_server engine_third_pass
           engine_third_pass_reaches_engine).
Defined.

(** The daemon starts after three failed binds and dies in the third
    cycle; the server has no termination handler, and in each of the
    cycles that follow [start] only stops daemon 7 again. *)
Lemma start_never_listens_again_dies :
  ∃ tr0,
    start_daemon 4 open_server None three_bind_failures = Some (Some 7%nat, tr0)
    ∧ (∃ c u' broke tr1,
         start_cycles 6 4 open_server dies_at_three (λ _, three_bind_failures)
           None 5%nat = Some (Some 7%nat, c, u', broke, tr0 ++ tr1)
         ∧ Forall (λ e, e = DSleep 1 ∨ e = DStop 7%nat) tr1)
    ∧ (∀ r d' u' tr,
         start 10 4 open_server dies_at_three (λ _, three_bind_failures)
           None 5%nat = Some (r, d', u', tr) →
         d' = Some 7%nat
         ∧ ∃ tr1, tr = tr0 ++ tr1
                  ∧ Forall (λ e, e = DSleep 1 ∨ e = DStop 7%nat) tr1).
Proof.
  eexists. split; [reflexivity|].
  exact (start_never_listens_again 6 10 4 open_server dies_at_three
           (λ _, three_bind_failures) 5%nat 7%nat _ eq_refl).
Defined.

(** The open server has no termination handler. *)
Lemma start_without_handler_never_returns_open :
  handler_should_terminate (options_ open_server) = None
  ∧ start 1000 4 open_server always_alive (λ _, three_bind_failures) None 5%nat
    = None.
Proof.
  split; [done|].
  exact (start_without_handler_never_returns 1000 4 open_server always_alive
           (λ _, three_bind_failures) None 5%nat eq_refl).
Defined.

(** The handler answers false at clocks 5, 6 and 7 and true at 8: four
    sleeps, then the daemon is stopped. *)
Lemma start_returns_at_first_true_clock_8 :
  ∃ tr0,
    start_daemon 4 stopping_server None three_bind_failures
      = Some (Some 7%nat, tr0)
    ∧ start (4 + 6) 4 stopping_server always_alive (λ _, three_bind_failures)
        None 5%nat
      = Some (1, Some 7%nat, 9%nat,
              tr0 ++ replicate 4 (DSleep 1) ++ [DStop 7%nat]).
Proof.
  eexists. split; [reflexivity|].
  apply (start_returns_at_first_true (λ now, ((8 <=? now)%nat, S now)) 3 6 4
           stopping_server always_alive (λ _, three_bind_failures) None
           (Some 7%nat) 5%nat _ eq_refl (λ _, eq_refl) eq_refl).
  - intros [|[|[|j]]] Hj; [done..|lia].
  - done.
Defined.


(** The second empty activation at a ceiling of 1 aborts and queues
    nothing. *)
Lemma abort_queues_nothing_timeout :
  ∃ out,
    serve Upload_createResponse 1%nat (post localhost "/upload" None)
      (Some 0%nat) MHD_YES (world_with waited_twice_state 1) = Some out
    ∧ (ret out = MHD_YES ∨ ret out = MHD_NO)
    ∧ ret out = MHD_NO
    ∧ (ret out = MHD_NO →
         response_sent waited_twice_state = false
         ∧ response_data waited_twice_state = ""%string
         ∧ count_events is_EvQueueResponse (trace out) = 0%nat
         ∧ ∃ st', states (world out) !! 0%nat = Some st'
                  ∧ response_sent st' = false
                  ∧ response_data st' = ""%string
                  ∧ response_headers st'
                    = response_headers waited_twice_state).
Proof.
  eexists. split; [reflexivity|].
  pose proof (abort_queues_nothing Upload_createResponse 1%nat
                (post localhost "/upload" None) (Some 0%nat) MHD_YES
                (world_with waited_twice_state 1) 0%nat _ [] waited_twice_state
                _ eq_refl eq_refl eq_refl) as [H1 H2].
  split; [exact H1|]. split; [reflexivity|exact H2].
Defined.

End MoreInstances.
